(** * recipes-rss-middletier-go: the RSS middle tier, embedded in Rocq

    The repository holds two near-identical HTTP services that differ in the
    instrumentation they are wired to:

    - [Middletier]  embeds [src/middletier.go] (gokieker monitoring):
      [GetFeed], [GetUrls], [AddFeed], [DeleteFeed];
    - [Opentracing] embeds the opentracing/appdash service
      ([src/unnamed/part_000]): [FetchFeed], [GetUrls], [FetchFeedContents],
      [Subscribe], [Unsubscribe].

    Handlers are Go procedures with effects on the response writer, on the
    Cassandra table and on the process itself ([log.Fatal] ends the process,
    a nil dereference panics). They are embedded as computations of a small
    state monad [Go] whose outcome says how control left the procedure. *)

From stdpp Require Import gmap strings list fin_maps.
From Stdlib Require Import ZArith Ascii.

Set Default Proof Using "Type".
Local Open Scope Z_scope.

(** ** Collaborators the source only calls *)

(** A Go [error] is observed through [err.Error()] only. *)
Definition error := string.

(** The subset of [gofeed.Item] and [gofeed.Feed] the service relies on. The
    handlers touch [FeedLink] only; every other field travels untouched from
    the parser to the encoder. *)
Record Item := mkItem {
  ItemTitle : string;
  ItemLink : string;
  ItemPublished : string
}.

Record Feed := mkFeed {
  Title : string;
  Description : string;
  Link : string;
  FeedLink : string;
  Items : list Item
}.

(** [feed.FeedLink = feedURL] *)
Definition set_FeedLink (feedURL : string) (feed : Feed) : Feed :=
  {| Title := Title feed;
     Description := Description feed;
     Link := Link feed;
     FeedLink := feedURL;
     Items := Items feed |}.

(** [type Subscription struct { Feeds []*gofeed.Feed }]. A Go slice is either
    [nil] or backed by an array; [encoding/json] tells the two apart. *)
Definition slice (A : Type) := option (list A).

Definition append {A} (s : slice A) (x : A) : slice A :=
  match s with
  | None => Some [x]
  | Some l => Some (l ++ [x])
  end.

Record Subscription := mkSubscription { Feeds : slice Feed }.

(** What the outside world answers during one request: the tracer, the
    Cassandra cluster, the network behind [gofeed] and the JSON shape of a
    [gofeed.Feed], none of which is code of this repository. *)
Record Env := mkEnv {
  (** [opentracing.GlobalTracer().Extract] on the request headers: the span
      context, or an error when the headers carry none. *)
  Extract : list (string * string) → string + error;
  (** [cluster.CreateSession()]: [Some err] when the cluster is unreachable. *)
  CreateSession_err : option error;
  (** The [SELECT] iterator: [Some (n, err)] when it breaks after [n] rows,
      which [iter.Close()] then reports. *)
  Iter_err : option (nat * error);
  (** [Query(...).Exec()] of an [INSERT] or [DELETE]: [Some err] when the
      cluster rejects or times out the write. *)
  Exec_err : option error;
  (** [gofeed.Parser.ParseURL]: the parsed feed, or the fetch/parse error. *)
  ParseURL : string → Feed + error;
  (** [encoding/json] on one [*gofeed.Feed]. *)
  encodeFeed : Feed → string
}.

(** An incoming request: headers, [mux.Vars(req)] and the parsed form. *)
Record Request := mkRequest {
  Header : list (string * string);
  Vars : gmap string string;
  Form : gmap string (list string)
}.

(** [vars["user"]]: a missing key of a Go map reads as the zero value. *)
Definition vars_get (req : Request) (key : string) : string :=
  default "" (Vars req !! key).

(** [req.FormValue(key)]: the first value of the key, or the empty string. *)
Definition FormValue (req : Request) (key : string) : string :=
  match Form req !! key with
  | Some (v :: _) => v
  | _ => ""
  end.

(** ** Process state *)

(** Everything a handler does to the outside, in program order. *)
Inductive Event :=
| EConnect (ok : bool)                 (* cluster.CreateSession() *)
| ESelect (user : string)              (* SELECT column1 ... WHERE key = ? *)
| EInsert (user feedURL value : string)(* INSERT INTO "Subscriptions" *)
| EDelete (user feedURL : string)      (* DELETE FROM "Subscriptions" *)
| EClose (session : nat)               (* session.Close() *)
| EFetch (feedURL : string)            (* the GET issued by ParseURL *)
| ELog (msg : string)                  (* the log package *)
| EBegin (name : string)               (* span start / BeginFunction *)
| EEnd (name : string).                (* span finish / EndFunction *)

Definition is_write (e : Event) : bool :=
  match e with
  | EInsert _ _ _ | EDelete _ _ => true
  | _ => false
  end.

(** The table ["Subscriptions"] has primary key [(key, column1)]; [live] are
    the sessions opened and not yet closed; [status] and [body] are the
    [http.ResponseWriter] of the request being served. *)
Record State := mkState {
  table : gmap (string * string) string;
  live : gset nat;
  next_session : nat;
  trace : list Event;
  status : option Z;
  body : string
}.

Definition emit (e : Event) (s : State) : State :=
  mkState (table s) (live s) (next_session s) (trace s ++ [e]) (status s) (body s).

Definition set_table (t : gmap (string * string) string) (s : State) : State :=
  mkState t (live s) (next_session s) (trace s) (status s) (body s).

Definition open_session (s : State) : nat * State :=
  (next_session s,
   mkState (table s) ({[next_session s]} ∪ live s) (S (next_session s))
           (trace s) (status s) (body s)).

Definition close_session (id : nat) (s : State) : State :=
  mkState (table s) (live s ∖ {[id]}) (next_session s) (trace s) (status s) (body s).

(** The state a fresh request starts from: nothing written to the response. *)
Definition fresh_writer (s : State) : State :=
  mkState (table s) (live s) (next_session s) (trace s) None "".

(** ** The [Go] monad *)

(** How control leaves a procedure: by returning, by a panic that unwinds the
    stack, or by [os.Exit], which ends the process on the spot. *)
Inductive Outcome (A : Type) :=
| Done (a : A)
| Panic (msg : string)
| Exit (code : Z).
Arguments Done {A} a.
Arguments Panic {A} msg.
Arguments Exit {A} code.

Definition Go (A : Type) := State → Outcome A * State.

Definition ret {A} (a : A) : Go A := fun s => (Done a, s).

Definition bind {A B} (m : Go A) (k : A → Go B) : Go B := fun s =>
  match m s with
  | (Done a, s') => k a s'
  | (Panic msg, s') => (Panic msg, s')
  | (Exit code, s') => (Exit code, s')
  end.

#[global] Instance Go_ret : MRet Go := @ret.
#[global] Instance Go_bind : MBind Go := fun A B k m => bind m k.

Definition modify (f : State → State) : Go unit := fun s => (Done tt, f s).

Definition panic {A} (msg : string) : Go A := fun s => (Panic msg, s).

(** [os.Exit(code)] *)
Definition os_Exit (code : Z) : Go unit := fun s => (Exit code, s).

(** [defer d; body]: [d] runs when [body] returns and when it panics; it does
    not run when the process exits underneath it. *)
Definition defer {A} (d : State → State) (body : Go A) : Go A := fun s =>
  match body s with
  | (Done a, s') => (Done a, d s')
  | (Panic msg, s') => (Panic msg, d s')
  | (Exit code, s') => (Exit code, s')
  end.

(** [log.Fatal(err)]: print, then [os.Exit(1)]. Nothing after it runs. *)
Definition log_Fatal (err : error) : Go unit :=
  modify (emit (ELog err));; os_Exit 1.

(** ** [net/http] *)

Definition StatusOK : Z := 200.
Definition StatusInternalServerError : Z := 500.

(** [w.WriteHeader(code)]: the first call fixes the status line. *)
Definition WriteHeader (code : Z) : Go unit := modify (fun s =>
  match status s with
  | Some _ => s
  | None => mkState (table s) (live s) (next_session s) (trace s) (Some code) (body s)
  end).

(** [w.Write(b)]: sends the header with status 200 if none was sent yet. *)
Definition Write (b : string) : Go unit :=
  WriteHeader StatusOK;;
  modify (fun s =>
    mkState (table s) (live s) (next_session s) (trace s) (status s) (body s +:+ b)).

(** What the client receives once the handler is over. A handler that returns
    without touching the writer yields an empty 200. When the handler panics,
    the [http.Server] of [src/middletier.go] recovers by dropping the
    connection, and when the process exits there is nobody left to answer:
    in both cases no response is completed. *)
Definition response {A} (r : Outcome A * State) : option (Z * string) :=
  match r with
  | (Done _, s) => Some (default StatusOK (status s), body s)
  | _ => None
  end.

(** ** [encoding/json] *)

Definition dquote : string := String "034"%char EmptyString.
Definition newline : string := String "010"%char EmptyString.

Fixpoint join (sep : string) (l : list string) : string :=
  match l with
  | [] => ""
  | [x] => x
  | x :: rest => x +:+ sep +:+ join sep rest
  end.

(** A nil slice encodes as [null], any other slice as an array. *)
Definition encodeSubscription (enc : Feed → string) (sub : Subscription) : string :=
  "{" +:+ dquote +:+ "Feeds" +:+ dquote +:+ ":" +:+
  match Feeds sub with
  | None => "null"
  | Some l => "[" +:+ join "," (enc <$> l) +:+ "]"
  end +:+ "}".

(** [json.NewEncoder(w).Encode(v)]: the value, then a newline. *)
Definition Encode (enc : Feed → string) (sub : Subscription) : Go unit :=
  Write (encodeSubscription enc sub +:+ newline).

(** ** [gocql] *)

(** The rows [SELECT column1 FROM "Subscriptions" WHERE key = ?] yields. *)
Definition select_column1 (t : gmap (string * string) string) (user : string)
  : list string :=
  (fun r => snd (fst r)) <$>
    filter (fun r => fst (fst r) = user) (map_to_list t).

(** [cluster.CreateSession()] *)
Definition CreateSession (env : Env) : Go (nat + error) := fun s =>
  match CreateSession_err env with
  | Some err => (Done (inr err), emit (EConnect false) s)
  | None =>
      let '(id, s') := open_session (emit (EConnect true) s) in
      (Done (inl id), s')
  end.

(** [session.Close()] *)
Definition session_Close (session : nat) (s : State) : State :=
  emit (EClose session) (close_session session s).

(** [session.Query(`SELECT ...`, user).Iter()]: the rows the iterator will
    hand out, and the error its [Close] will report. *)
Definition Query_Iter (env : Env) (user : string)
  : Go (list string * option error) := fun s =>
  let rows := select_column1 (table s) user in
  (Done (match Iter_err env with
         | Some (n, err) => (take n rows, Some err)
         | None => (rows, None)
         end),
   emit (ESelect user) s).

(** [for iter.Scan(&feedURL) { feedURLs = append(feedURLs, feedURL) }] *)
Fixpoint scan_loop (rows : list string) (feedURLs : list string) : list string :=
  match rows with
  | [] => feedURLs
  | feedURL :: rest => scan_loop rest (feedURLs ++ [feedURL])
  end.

(** [session.Query(`INSERT ...`, user, feedURL, value).Exec()]: an upsert on
    the primary key. *)
Definition Exec_insert (env : Env) (user feedURL value : string)
  : Go (option error) := fun s =>
  match Exec_err env with
  | Some err => (Done (Some err), emit (EInsert user feedURL value) s)
  | None =>
      (Done None,
       set_table (<[(user, feedURL) := value]> (table s))
                 (emit (EInsert user feedURL value) s))
  end.

(** [session.Query(`DELETE ...`, user, feedURL).Exec()]: writes a tombstone,
    whether or not the row exists. *)
Definition Exec_delete (env : Env) (user feedURL : string)
  : Go (option error) := fun s =>
  match Exec_err env with
  | Some err => (Done (Some err), emit (EDelete user feedURL) s)
  | None =>
      (Done None,
       set_table (delete (user, feedURL) (table s))
                 (emit (EDelete user feedURL) s))
  end.

(** ** [gofeed] *)

(** [fp.ParseURL(feedURL)] as the Go pair [(feed, err)]. Every error path of
    [gofeed] is a [return nil, err]: on failure the feed pointer is nil. *)
Definition Parser_ParseURL (env : Env) (feedURL : string)
  : Go (option Feed * option error) := fun s =>
  (Done (match ParseURL env feedURL with
         | inl feed => (Some feed, None)
         | inr err => (None, Some err)
         end),
   emit (EFetch feedURL) s).

(** ** [src/middletier.go]: the gokieker service *)

Module Middletier.
Section Handlers.
Variable env : Env.

(** [k := gokieker.BeginFunction(); defer k.EndFunction()] *)
Definition monitored {A} (name : string) (body : Go A) : Go A :=
  modify (emit (EBegin name));;
  defer (emit (EEnd name)) body.

Definition GetCassandraSession : Go (nat + error) := CreateSession env.

Definition ReturnErrorPage (err : error) : Go unit :=
  WriteHeader StatusInternalServerError;;
  Write err.

Definition GetUrls (user : string) : Go (list string + error) :=
  monitored "GetUrls" (
    r ← GetCassandraSession;
    match r with
    | inr _ => mret (inr "Cannot connect to cassandra")
    | inl session =>
        defer (session_Close session) (
          '(rows, close_err) ← Query_Iter env user;
          let feedURLs := scan_loop rows [] in
          match close_err with
          | Some err =>
              log_Fatal err;;
              mret (inr "Error fetching data from cassandra")
          | None => mret (inl feedURLs)
          end)
    end).

(** The body of [for _, feedURL := range feedURLs]. The error of
    [ParseURL] is dropped and the returned pointer is written through. *)
Fixpoint feed_loop (feedURLs : list string) (subscription : Subscription)
  : Go Subscription :=
  match feedURLs with
  | [] => mret subscription
  | feedURL :: rest =>
      '(feed, _) ← Parser_ParseURL env feedURL;
      match feed with
      | None =>
          panic "runtime error: invalid memory address or nil pointer dereference"
      | Some f =>
          let feed := set_FeedLink feedURL f in
          feed_loop rest (mkSubscription (append (Feeds subscription) feed))
      end
  end.

Definition GetFeed (req : Request) : Go unit :=
  monitored "GetFeed" (
    let user := vars_get req "user" in
    r ← GetUrls user;
    match r with
    | inr err => ReturnErrorPage err
    | inl feedURLs =>
        subscription ← feed_loop feedURLs (mkSubscription None);
        Encode (encodeFeed env) subscription
    end).

Definition AddFeed (req : Request) : Go unit :=
  monitored "AddFeed" (
    let user := vars_get req "user" in
    let feedURL := FormValue req "url" in
    r ← GetCassandraSession;
    match r with
    | inr err =>
        log_Fatal err;;
        ReturnErrorPage err
    | inl session =>
        defer (session_Close session) (
          err ← Exec_insert env user feedURL "1";
          match err with
          | Some err =>
              log_Fatal err;;
              ReturnErrorPage err
          | None => WriteHeader StatusOK
          end)
    end).

Definition DeleteFeed (req : Request) : Go unit :=
  monitored "DeleteFeed" (
    let user := vars_get req "user" in
    let feedURL := FormValue req "url" in
    r ← GetCassandraSession;
    match r with
    | inr err =>
        log_Fatal err;;
        ReturnErrorPage err
    | inl session =>
        defer (session_Close session) (
          err ← Exec_delete env user feedURL;
          match err with
          | Some err =>
              log_Fatal err;;
              ReturnErrorPage err
          | None => WriteHeader StatusOK
          end)
    end).

Definition Healthcheck (req : Request) : Go unit :=
  Write "<h1>Healthcheck page</h1>".

End Handlers.
End Middletier.

(** ** [src/unnamed/part_000]: the opentracing/appdash service *)

Module Opentracing.
Section Handlers.
Variable env : Env.

(** [span := ...StartSpan(name...); defer span.Finish()] *)
Definition traced {A} (name : string) (body : Go A) : Go A :=
  modify (emit (EBegin name));;
  defer (emit (EEnd name)) body.

Definition GetCassandraSession : Go (nat + error) :=
  traced "middletier:GetCassandraSession" (CreateSession env).

Definition ReturnErrorPage (err : error) : Go unit :=
  WriteHeader StatusInternalServerError;;
  Write err.

Definition GetUrls (user : string) : Go (list string + error) :=
  traced "middletier:GetUrls" (
    r ← GetCassandraSession;
    match r with
    | inr _ => mret (inr "Cannot connect to cassandra")
    | inl session =>
        defer (session_Close session) (
          '(rows, close_err) ← Query_Iter env user;
          let feedURLs := scan_loop rows [] in
          match close_err with
          | Some err =>
              log_Fatal err;;
              mret (inr "Error fetching data from cassandra")
          | None => mret (inl feedURLs)
          end)
    end).

Definition FetchFeedContents (feedURL : string) : Go (option Feed * option error) :=
  traced "middletier:FetchFeedContents" (
    '(feed, err) ← Parser_ParseURL env feedURL;
    match err with
    | Some err => mret (None, Some err)
    | None => mret (feed, None)
    end).

(** The body of [for _, feedURL := range feedURLs]: a failed fetch takes
    the [continue] branch. *)
Fixpoint feed_loop (feedURLs : list string) (subscription : Subscription)
  : Go Subscription :=
  match feedURLs with
  | [] => mret subscription
  | feedURL :: rest =>
      '(feed, err) ← FetchFeedContents feedURL;
      match err with
      | Some _ => feed_loop rest subscription
      | None =>
          match feed with
          | None =>
              panic "runtime error: invalid memory address or nil pointer dereference"
          | Some f =>
              let feed := set_FeedLink feedURL f in
              feed_loop rest (mkSubscription (append (Feeds subscription) feed))
          end
      end
  end.

Definition FetchFeed (req : Request) : Go unit :=
  match Extract env (Header req) with
  | inr _ => mret tt
  | inl spanCtx =>
      traced "middletier:FetchFeed" (
        let user := vars_get req "user" in
        r ← GetUrls user;
        match r with
        | inr err => ReturnErrorPage err
        | inl feedURLs =>
            subscription ← feed_loop feedURLs (mkSubscription None);
            Encode (encodeFeed env) subscription
        end)
  end.

Definition Subscribe (req : Request) : Go unit :=
  match Extract env (Header req) with
  | inr _ => mret tt
  | inl spanCtx =>
      traced "middletier:Subscribe" (
        let user := vars_get req "user" in
        let feedURL := FormValue req "url" in
        r ← GetCassandraSession;
        match r with
        | inr err =>
            log_Fatal err;;
            ReturnErrorPage err
        | inl session =>
            defer (session_Close session) (
              err ← Exec_insert env user feedURL "1";
              match err with
              | Some err =>
                  log_Fatal err;;
                  ReturnErrorPage err
              | None => WriteHeader StatusOK
              end)
        end)
  end.

Definition Unsubscribe (req : Request) : Go unit :=
  match Extract env (Header req) with
  | inr _ => mret tt
  | inl spanCtx =>
      traced "middletier:Unsubscribe" (
        let user := vars_get req "user" in
        let feedURL := FormValue req "url" in
        r ← GetCassandraSession;
        match r with
        | inr err =>
            log_Fatal err;;
            ReturnErrorPage err
        | inl session =>
            defer (session_Close session) (
              err ← Exec_delete env user feedURL;
              match err with
              | Some err =>
                  log_Fatal err;;
                  ReturnErrorPage err
              | None => WriteHeader StatusOK
              end)
        end)
  end.

Definition Healthcheck (req : Request) : Go unit :=
  Write "<h1>Healthcheck page</h1>".

End Handlers.
End Opentracing.

(** [net/http] hands every request a writer of its own. *)
Definition serve (handler : Request → Go unit) (req : Request) (s : State)
  : Outcome unit * State :=
  handler req (fresh_writer s).

(** ** Sample data *)

Definition feed_a : Feed :=
  mkFeed "A" "first" "http://a.example/" "http://self.a.example/rss"
         [mkItem "a1" "http://a.example/1" "Mon, 02 Jan 2006"].

Definition url_a : string := "http://a.example/rss".
Definition url_b : string := "http://b.example/rss".

Definition sample_encodeFeed (f : Feed) : string :=
  "{" +:+ dquote +:+ "feedLink" +:+ dquote +:+ ":" +:+
  dquote +:+ FeedLink f +:+ dquote +:+ "}".

(** [a.example] answers, everything else times out. *)
Definition sample_ParseURL (feedURL : string) : Feed + error :=
  if String.eqb feedURL url_a then inl feed_a else inr "i/o timeout".

Definition traced_header : list (string * string) :=
  [("Ot-Tracer-Traceid", "1"); ("Ot-Tracer-Spanid", "2")].

Definition sample_Extract (h : list (string * string)) : string + error :=
  match h with
  | [] => inr "opentracing: SpanContext not found in Extract carrier"
  | _ => inl "span"
  end.

Definition env_ok : Env :=
  mkEnv sample_Extract None None None sample_ParseURL sample_encodeFeed.

Definition env_unreachable : Env :=
  mkEnv sample_Extract (Some "gocql: unable to create session")
        None None sample_ParseURL sample_encodeFeed.

Definition env_iter_fails : Env :=
  mkEnv sample_Extract None (Some (0%nat, "gocql: no response received"))
        None sample_ParseURL sample_encodeFeed.

Definition env_exec_fails : Env :=
  mkEnv sample_Extract None None (Some "gocql: write timeout")
        sample_ParseURL sample_encodeFeed.

Definition req_alice (h : list (string * string)) (feedURL : string) : Request :=
  mkRequest h {[ "user" := "alice" ]} {[ "url" := [feedURL] ]}.

Definition state0 (t : gmap (string * string) string) : State :=
  mkState t ∅ 0 [] None "".

Definition table_b : gmap (string * string) string :=
  {[ ("alice", url_b) := "1" ]}.

Definition table_ab : gmap (string * string) string :=
  <[ ("alice", url_a) := "1" ]> table_b.

(** ** What a fetch request is expected to deliver *)

Definition fetch_ok (env : Env) (feedURL : string) : bool :=
  match ParseURL env feedURL with
  | inl _ => true
  | inr _ => false
  end.

(** The feed collection in the words of the specification, not of the code:
    one feed per URL whose fetch succeeds, in the order of the URLs, each
    stamped with its URL. *)
Definition successful_feeds (env : Env) (feedURLs : list string) : list Feed :=
  omap (fun feedURL =>
          match ParseURL env feedURL with
          | inl feed => Some (set_FeedLink feedURL feed)
          | inr _ => None
          end) feedURLs.

(** The body of a successful fetch response carrying [feeds]. *)
Definition payload (env : Env) (feeds : list Feed) : string :=
  encodeSubscription (encodeFeed env) (mkSubscription (foldl append None feeds))
  +:+ newline.

Definition emit_all (es : list Event) (s : State) : State :=
  mkState (table s) (live s) (next_session s) (trace s ++ es) (status s) (body s).

Definition is_log (e : Event) : bool :=
  match e with
  | ELog _ => true
  | _ => false
  end.

(** What the traced loop leaves in the trace. *)
Definition fetch_events (feedURLs : list string) : list Event :=
  feedURLs ≫= fun u =>
    [EBegin "middletier:FetchFeedContents"; EFetch u;
     EEnd "middletier:FetchFeedContents"].

(** A session that was opened and closed again: the identifier is used up
    and is not live. *)
Definition session_used (s : State) : State :=
  mkState (table s) (({[next_session s]} ∪ live s) ∖ {[next_session s]})
          (S (next_session s)) (trace s) (status s) (body s).

(** A session that was opened and never closed. *)
Definition session_leaked (s : State) : State :=
  mkState (table s) ({[next_session s]} ∪ live s)
          (S (next_session s)) (trace s) (status s) (body s).

(** The state after a write handler went through: session used up, table
    replaced, an explicit 200 and nothing in the body. *)
Definition written (t : gmap (string * string) string) (es : list Event)
  (s : State) : State :=
  mkState t (({[next_session s]} ∪ live s) ∖ {[next_session s]})
          (S (next_session s)) (trace s ++ es) (Some StatusOK) "".

(** The state a write handler leaves when [log.Fatal] stops the process
    after [CreateSession] failed. *)
Definition died_unconnected (es : list Event) (s : State) : State :=
  mkState (table s) (live s) (next_session s) (trace s ++ es) None "".

(** The state a write handler leaves when [log.Fatal] stops the process
    after [Exec] failed: the session is still open. *)
Definition died_connected (es : list Event) (s : State) : State :=
  mkState (table s) ({[next_session s]} ∪ live s) (S (next_session s))
          (trace s ++ es) None "".

(** The rows stored under one primary key. *)
Definition rows_of (t : gmap (string * string) string) (user feedURL : string)
  : list ((string * string) * string) :=
  filter (fun r => fst r = (user, feedURL)) (map_to_list t).

(** ** Observations on a run *)

Definition is_fetch (e : Event) : bool :=
  match e with
  | EFetch _ => true
  | _ => false
  end.

Definition is_select (e : Event) : bool :=
  match e with
  | ESelect _ => true
  | _ => false
  end.

(** The message of the Go runtime for a write through a nil pointer. *)
Definition nil_dereference : string :=
  "runtime error: invalid memory address or nil pointer dereference".

(** The URLs a loop without [continue] gets to: all of them up to and
    including the first whose fetch fails. *)
Fixpoint attempted (env : Env) (feedURLs : list string) : list string :=
  match feedURLs with
  | [] => []
  | feedURL :: rest =>
      feedURL :: (if fetch_ok env feedURL then attempted env rest else [])
  end.

(** Session identifiers are handed out in increasing order: every live
    session is older than the next identifier. *)
Definition sessions_fresh (s : State) : bool :=
  forallb (fun id => Nat.ltb id (next_session s)) (elements (live s)).

(** Matches [EBegin]/[EEnd] events like parentheses: the names still open
    after [es], starting from the names in [opened]; [None] when an [EEnd]
    closes something that is not the innermost open name. *)
Fixpoint brackets (opened : list string) (es : list Event) : option (list string) :=
  match es with
  | [] => Some opened
  | EBegin name :: rest => brackets (name :: opened) rest
  | EEnd name :: rest =>
      match opened with
      | top :: opened' =>
          if String.eqb name top then brackets opened' rest else None
      | [] => None
      end
  | _ :: rest => brackets opened rest
  end.

(** * Properties *)

(** ** The runtime *)

(** Unfolds the monad's plumbing and evaluates what is determined. *)
Ltac go_run :=
  repeat (progress (unfold mbind, Go_bind, bind, mret, Go_ret, ret, defer,
                      modify, panic, os_Exit, log_Fatal; cbn)).

(** Closes an equation between two final states. *)
Ltac state_eq :=
  unfold emit_all, session_Close, close_session, open_session, emit,
    set_table, fresh_writer;
  cbn; rewrite <- ?app_assoc; reflexivity.

Lemma emit_all_nil s : emit_all [] s = s.
Proof. destruct s; unfold emit_all; simpl. by rewrite app_nil_r. Qed.

Lemma emit_emit_all e es s : emit_all es (emit e s) = emit_all (e :: es) s.
Proof. unfold emit_all, emit; simpl. by rewrite <- app_assoc. Qed.

Lemma emit_all_emit e es s : emit e (emit_all es s) = emit_all (es ++ [e]) s.
Proof. unfold emit_all, emit; simpl. by rewrite app_assoc. Qed.

Lemma emit_all_app es1 es2 s :
  emit_all es2 (emit_all es1 s) = emit_all (es1 ++ es2) s.
Proof. unfold emit_all; simpl. by rewrite app_assoc. Qed.

Lemma scan_loop_app rows feedURLs : scan_loop rows feedURLs = feedURLs ++ rows.
Proof.
  revert feedURLs. induction rows as [|r rows IH]; intros acc; simpl.
  - by rewrite app_nil_r.
  - rewrite IH. by rewrite <- app_assoc.
Qed.

Lemma foldl_append_Some {A} (l acc : list A) :
  foldl append (Some acc) l = Some (acc ++ l).
Proof.
  revert acc. induction l as [|x l IH]; intros acc; simpl.
  - by rewrite app_nil_r.
  - rewrite IH. by rewrite <- app_assoc.
Qed.

(** A slice that is never appended to stays nil; one append makes it a
    proper array for good. *)
Lemma foldl_append_None {A} (l : list A) :
  foldl append None l = match l with [] => None | _ => Some l end.
Proof. destruct l as [|x l]; [done|]. simpl. by rewrite foldl_append_Some. Qed.

(** ** The fetch loops *)

Lemma successful_feeds_FeedLink env feedURLs :
  Forall2 (fun feedURL feed =>
             FeedLink feed = feedURL
             ∧ ∃ parsed, ParseURL env feedURL = inl parsed
                         ∧ feed = set_FeedLink feedURL parsed)
          (filter (fun u => fetch_ok env u = true) feedURLs)
          (successful_feeds env feedURLs).
Proof.
  induction feedURLs as [|u l IH]; [constructor|].
  destruct (ParseURL env u) as [f|e] eqn:Hu.
  - rewrite filter_cons_True by (unfold fetch_ok; by rewrite Hu).
    unfold successful_feeds. simpl. rewrite Hu. constructor; [|exact IH].
    split; [done|]. by exists f.
  - rewrite filter_cons_False by (unfold fetch_ok; by rewrite Hu).
    unfold successful_feeds. simpl. by rewrite Hu.
Qed.

Lemma successful_feeds_none env feedURLs :
  Forall (fun u => fetch_ok env u = false) feedURLs →
  successful_feeds env feedURLs = [].
Proof.
  induction 1 as [|u l Hu _ IH]; [done|].
  unfold successful_feeds, fetch_ok in *. simpl.
  destruct (ParseURL env u); [done|]. exact IH.
Qed.

Lemma FetchFeedContents_run env feedURL s :
  Opentracing.FetchFeedContents env feedURL s =
  (Done (match ParseURL env feedURL with
         | inl feed => (Some feed, None)
         | inr err => (None, Some err)
         end),
   emit_all (fetch_events [feedURL]) s).
Proof.
  destruct s as [t lv n tr st b].
  unfold Opentracing.FetchFeedContents, Opentracing.traced, Parser_ParseURL.
  destruct (ParseURL env feedURL); go_run;
    unfold emit_all, emit, fetch_events; cbn; rewrite <- ?app_assoc; reflexivity.
Qed.

(** The traced loop runs to its end whatever the feeds answer. *)
Lemma Opentracing_feed_loop_total env feedURLs subscription s :
  Opentracing.feed_loop env feedURLs subscription s =
  (Done (mkSubscription
           (foldl append (Feeds subscription) (successful_feeds env feedURLs))),
   emit_all (fetch_events feedURLs) s).
Proof.
  revert subscription s.
  induction feedURLs as [|u l IH]; intros [feeds] s.
  - simpl. by rewrite emit_all_nil.
  - cbn [Opentracing.feed_loop].
    unfold mbind at 1, Go_bind, bind. rewrite FetchFeedContents_run.
    change (fetch_events (u :: l)) with (fetch_events [u] ++ fetch_events l).
    rewrite <- emit_all_app.
    unfold successful_feeds. cbn [omap list_omap].
    destruct (ParseURL env u) as [f|e]; cbn [Feeds foldl]; by rewrite IH.
Qed.

(** The monitored loop reaches its end when every fetch succeeds... *)
Lemma Middletier_feed_loop_all_ok env feedURLs subscription s :
  Forall (fun u => fetch_ok env u = true) feedURLs →
  Middletier.feed_loop env feedURLs subscription s =
  (Done (mkSubscription
           (foldl append (Feeds subscription) (successful_feeds env feedURLs))),
   emit_all (EFetch <$> feedURLs) s).
Proof.
  intros Hall. revert subscription s.
  induction Hall as [|u l Hu _ IH]; intros [feeds] s.
  - simpl. by rewrite emit_all_nil.
  - cbn [Middletier.feed_loop].
    unfold mbind at 1, Go_bind, bind, Parser_ParseURL.
    unfold fetch_ok in Hu. unfold successful_feeds.
    cbn [omap list_omap fmap list_fmap].
    destruct (ParseURL env u) as [f|e]; [|done]. cbn [Feeds foldl].
    rewrite IH. by rewrite emit_emit_all.
Qed.

(** ... and panics at the first one that fails. *)
Lemma Middletier_feed_loop_panics env feedURLs subscription s :
  Exists (fun u => fetch_ok env u = false) feedURLs →
  ∃ msg s', Middletier.feed_loop env feedURLs subscription s = (Panic msg, s')
            ∧ table s' = table s ∧ status s' = status s ∧ body s' = body s.
Proof.
  intros Hex. revert subscription s.
  induction feedURLs as [|u l IH]; intros sub s.
  - by apply Exists_nil in Hex.
  - cbn [Middletier.feed_loop].
    unfold mbind at 1, Go_bind, bind, Parser_ParseURL, panic.
    destruct (ParseURL env u) as [f|e] eqn:Hu.
    + apply Exists_cons in Hex as [Hex|Hex].
      { unfold fetch_ok in Hex. by rewrite Hu in Hex. }
      destruct (IH Hex (mkSubscription (append (Feeds sub) (set_FeedLink u f)))
                  (emit (EFetch u) s)) as (msg & s' & -> & ? & ? & ?).
      eauto 10.
    + eauto 10.
Qed.

(** ** Listing the subscriptions *)

Lemma Middletier_GetUrls_ok env user s :
  CreateSession_err env = None → Iter_err env = None →
  Middletier.GetUrls env user s =
  (Done (inl (select_column1 (table s) user)),
   emit_all [EBegin "GetUrls"; EConnect true; ESelect user;
             EClose (next_session s); EEnd "GetUrls"] (session_used s)).
Proof.
  intros Hc Hi. destruct s as [t lv n tr st b].
  unfold Middletier.GetUrls, Middletier.monitored,
    Middletier.GetCassandraSession, CreateSession, Query_Iter.
  rewrite Hc, Hi. go_run. rewrite scan_loop_app.
  state_eq.
Qed.

Lemma Middletier_GetUrls_unreachable env user s err :
  CreateSession_err env = Some err →
  Middletier.GetUrls env user s =
  (Done (inr "Cannot connect to cassandra"),
   emit_all [EBegin "GetUrls"; EConnect false; EEnd "GetUrls"] s).
Proof.
  intros Hc. destruct s as [t lv n tr st b].
  unfold Middletier.GetUrls, Middletier.monitored,
    Middletier.GetCassandraSession, CreateSession.
  rewrite Hc. go_run. state_eq.
Qed.

(** [log.Fatal] ends the process inside [GetUrls]: the deferred
    [session.Close()] and [k.EndFunction()] never run. *)
Lemma Middletier_GetUrls_iter_fails env user s k err :
  CreateSession_err env = None → Iter_err env = Some (k, err) →
  Middletier.GetUrls env user s =
  (Exit 1,
   emit_all [EBegin "GetUrls"; EConnect true; ESelect user; ELog err]
            (session_leaked s)).
Proof.
  intros Hc Hi. destruct s as [t lv n tr st b].
  unfold Middletier.GetUrls, Middletier.monitored,
    Middletier.GetCassandraSession, CreateSession, Query_Iter.
  rewrite Hc, Hi. go_run.
  unfold emit_all, session_leaked, emit. cbn. rewrite <- ?app_assoc; reflexivity.
Qed.

Lemma Opentracing_GetUrls_ok env user s :
  CreateSession_err env = None → Iter_err env = None →
  Opentracing.GetUrls env user s =
  (Done (inl (select_column1 (table s) user)),
   emit_all [EBegin "middletier:GetUrls";
             EBegin "middletier:GetCassandraSession"; EConnect true;
             EEnd "middletier:GetCassandraSession"; ESelect user;
             EClose (next_session s); EEnd "middletier:GetUrls"]
            (session_used s)).
Proof.
  intros Hc Hi. destruct s as [t lv n tr st b].
  unfold Opentracing.GetUrls, Opentracing.traced,
    Opentracing.GetCassandraSession, Opentracing.traced,
    CreateSession, Query_Iter.
  rewrite Hc, Hi. go_run. rewrite scan_loop_app.
  state_eq.
Qed.

Lemma Opentracing_GetUrls_unreachable env user s err :
  CreateSession_err env = Some err →
  Opentracing.GetUrls env user s =
  (Done (inr "Cannot connect to cassandra"),
   emit_all [EBegin "middletier:GetUrls";
             EBegin "middletier:GetCassandraSession"; EConnect false;
             EEnd "middletier:GetCassandraSession";
             EEnd "middletier:GetUrls"] s).
Proof.
  intros Hc. destruct s as [t lv n tr st b].
  unfold Opentracing.GetUrls, Opentracing.traced,
    Opentracing.GetCassandraSession, Opentracing.traced, CreateSession.
  rewrite Hc. go_run. state_eq.
Qed.

Lemma Opentracing_GetUrls_iter_fails env user s k err :
  CreateSession_err env = None → Iter_err env = Some (k, err) →
  Opentracing.GetUrls env user s =
  (Exit 1,
   emit_all [EBegin "middletier:GetUrls";
             EBegin "middletier:GetCassandraSession"; EConnect true;
             EEnd "middletier:GetCassandraSession"; ESelect user; ELog err]
            (session_leaked s)).
Proof.
  intros Hc Hi. destruct s as [t lv n tr st b].
  unfold Opentracing.GetUrls, Opentracing.traced,
    Opentracing.GetCassandraSession, Opentracing.traced,
    CreateSession, Query_Iter.
  rewrite Hc, Hi. go_run.
  unfold emit_all, session_leaked, emit. cbn. rewrite <- ?app_assoc; reflexivity.
Qed.

(** ** Fetch requests *)

Lemma table_emit_all es s : table (emit_all es s) = table s.
Proof. done. Qed.

Lemma Opentracing_FetchFeed_ok env req s ctx :
  Extract env (Header req) = inl ctx →
  CreateSession_err env = None → Iter_err env = None →
  response (serve (Opentracing.FetchFeed env) req s) =
  Some (StatusOK,
        payload env (successful_feeds env
                       (select_column1 (table s) (vars_get req "user")))).
Proof.
  intros He Hc Hi. unfold serve, Opentracing.FetchFeed. rewrite He.
  unfold Opentracing.traced, mbind, Go_bind, bind, defer, modify.
  rewrite Opentracing_GetUrls_ok by done.
  rewrite Opentracing_feed_loop_total.
  destruct s as [t lv n tr st b]. reflexivity.
Qed.

Lemma Middletier_GetFeed_all_ok env req s :
  CreateSession_err env = None → Iter_err env = None →
  Forall (fun u => fetch_ok env u = true)
         (select_column1 (table s) (vars_get req "user")) →
  response (serve (Middletier.GetFeed env) req s) =
  Some (StatusOK,
        payload env (successful_feeds env
                       (select_column1 (table s) (vars_get req "user")))).
Proof.
  intros Hc Hi Hall. unfold serve, Middletier.GetFeed.
  unfold Middletier.monitored, mbind, Go_bind, bind, defer, modify.
  rewrite Middletier_GetUrls_ok by done.
  rewrite Middletier_feed_loop_all_ok by done.
  destruct s as [t lv n tr st b]. reflexivity.
Qed.

(** One failing feed takes the monitored handler down before anything is
    written to the response. *)
Lemma Middletier_GetFeed_panics env req s :
  CreateSession_err env = None → Iter_err env = None →
  Exists (fun u => fetch_ok env u = false)
         (select_column1 (table s) (vars_get req "user")) →
  ∃ msg s', serve (Middletier.GetFeed env) req s = (Panic msg, s')
            ∧ table s' = table s ∧ status s' = None ∧ body s' = "".
Proof.
  intros Hc Hi Hex. unfold serve, Middletier.GetFeed.
  unfold Middletier.monitored, mbind, Go_bind, bind, defer, modify.
  rewrite Middletier_GetUrls_ok by done.
  match goal with
  | |- context [Middletier.feed_loop env ?l ?sub ?s0] =>
      destruct (Middletier_feed_loop_panics env l sub s0) as
        (msg & s' & -> & Ht & Hs & Hb); [exact Hex|]
  end.
  exists msg. eexists. split; [reflexivity|].
  destruct s as [t lv n tr st b]. rewrite table_emit_all in Ht.
  cbn in *. auto.
Qed.

Lemma Middletier_GetFeed_unreachable env req s err :
  CreateSession_err env = Some err →
  serve (Middletier.GetFeed env) req s =
  (Done tt,
   mkState (table s) (live s) (next_session s)
           (trace s ++ [EBegin "GetFeed"; EBegin "GetUrls"; EConnect false;
                        EEnd "GetUrls"; EEnd "GetFeed"])
           (Some StatusInternalServerError) "Cannot connect to cassandra").
Proof.
  intros Hc. unfold serve, Middletier.GetFeed.
  unfold Middletier.monitored, mbind, Go_bind, bind, defer, modify.
  rewrite (Middletier_GetUrls_unreachable _ _ _ err) by done.
  destruct s as [t lv n tr st b]. cbn. f_equal. state_eq.
Qed.

Lemma Opentracing_FetchFeed_unreachable env req s ctx err :
  Extract env (Header req) = inl ctx →
  CreateSession_err env = Some err →
  serve (Opentracing.FetchFeed env) req s =
  (Done tt,
   mkState (table s) (live s) (next_session s)
           (trace s ++ [EBegin "middletier:FetchFeed";
                        EBegin "middletier:GetUrls";
                        EBegin "middletier:GetCassandraSession"; EConnect false;
                        EEnd "middletier:GetCassandraSession";
                        EEnd "middletier:GetUrls"; EEnd "middletier:FetchFeed"])
           (Some StatusInternalServerError) "Cannot connect to cassandra").
Proof.
  intros He Hc. unfold serve, Opentracing.FetchFeed. rewrite He.
  unfold Opentracing.traced, mbind, Go_bind, bind, defer, modify.
  rewrite (Opentracing_GetUrls_unreachable _ _ _ err) by done.
  destruct s as [t lv n tr st b]. cbn. f_equal. state_eq.
Qed.

Lemma Middletier_GetFeed_iter_fails env req s k err :
  CreateSession_err env = None → Iter_err env = Some (k, err) →
  ∃ s', serve (Middletier.GetFeed env) req s = (Exit 1, s')
        ∧ status s' = None ∧ body s' = "" ∧ next_session s ∈ live s'.
Proof.
  intros Hc Hi. unfold serve, Middletier.GetFeed.
  unfold Middletier.monitored, mbind, Go_bind, bind, defer, modify.
  rewrite (Middletier_GetUrls_iter_fails _ _ _ k err) by done.
  eexists. split; [reflexivity|]. destruct s as [t lv n tr st b]. cbn.
  repeat split. set_solver.
Qed.

Lemma Opentracing_FetchFeed_iter_fails env req s ctx k err :
  Extract env (Header req) = inl ctx →
  CreateSession_err env = None → Iter_err env = Some (k, err) →
  ∃ s', serve (Opentracing.FetchFeed env) req s = (Exit 1, s')
        ∧ status s' = None ∧ body s' = "" ∧ next_session s ∈ live s'.
Proof.
  intros He Hc Hi. unfold serve, Opentracing.FetchFeed. rewrite He.
  unfold Opentracing.traced, mbind, Go_bind, bind, defer, modify.
  rewrite (Opentracing_GetUrls_iter_fails _ _ _ k err) by done.
  eexists. split; [reflexivity|]. destruct s as [t lv n tr st b]. cbn.
  repeat split. set_solver.
Qed.

(** ** Subscribe and unsubscribe *)

Section WriteHandlers.
Variables (env : Env) (req : Request) (s : State).

Lemma Middletier_AddFeed_ok :
  CreateSession_err env = None → Exec_err env = None →
  serve (Middletier.AddFeed env) req s =
  (Done tt,
   written (<[(vars_get req "user", FormValue req "url") := "1"]> (table s))
           [EBegin "AddFeed"; EConnect true; EInsert (vars_get req "user") (FormValue req "url") "1";
            EClose (next_session s); EEnd "AddFeed"] s).
Proof.
  intros Hc Hx. destruct s as [t lv n tr st b].
  unfold serve, Middletier.AddFeed, Middletier.monitored,
    Middletier.GetCassandraSession, CreateSession, Exec_insert.
  rewrite Hc, Hx. go_run. unfold written. f_equal. state_eq.
Qed.

Lemma Middletier_DeleteFeed_ok :
  CreateSession_err env = None → Exec_err env = None →
  serve (Middletier.DeleteFeed env) req s =
  (Done tt,
   written (delete (vars_get req "user", FormValue req "url") (table s))
           [EBegin "DeleteFeed"; EConnect true; EDelete (vars_get req "user") (FormValue req "url");
            EClose (next_session s); EEnd "DeleteFeed"] s).
Proof.
  intros Hc Hx. destruct s as [t lv n tr st b].
  unfold serve, Middletier.DeleteFeed, Middletier.monitored,
    Middletier.GetCassandraSession, CreateSession, Exec_delete.
  rewrite Hc, Hx. go_run. unfold written. f_equal. state_eq.
Qed.

Lemma Opentracing_Subscribe_ok ctx :
  Extract env (Header req) = inl ctx →
  CreateSession_err env = None → Exec_err env = None →
  serve (Opentracing.Subscribe env) req s =
  (Done tt,
   written (<[(vars_get req "user", FormValue req "url") := "1"]> (table s))
           [EBegin "middletier:Subscribe";
            EBegin "middletier:GetCassandraSession"; EConnect true;
            EEnd "middletier:GetCassandraSession";
            EInsert (vars_get req "user") (FormValue req "url") "1";
            EClose (next_session s); EEnd "middletier:Subscribe"] s).
Proof.
  intros He Hc Hx. destruct s as [t lv n tr st b].
  unfold serve, Opentracing.Subscribe. rewrite He.
  unfold Opentracing.traced, Opentracing.GetCassandraSession,
    Opentracing.traced, CreateSession, Exec_insert.
  rewrite Hc, Hx. go_run. unfold written. f_equal. state_eq.
Qed.

Lemma Opentracing_Unsubscribe_ok ctx :
  Extract env (Header req) = inl ctx →
  CreateSession_err env = None → Exec_err env = None →
  serve (Opentracing.Unsubscribe env) req s =
  (Done tt,
   written (delete (vars_get req "user", FormValue req "url") (table s))
           [EBegin "middletier:Unsubscribe";
            EBegin "middletier:GetCassandraSession"; EConnect true;
            EEnd "middletier:GetCassandraSession";
            EDelete (vars_get req "user") (FormValue req "url");
            EClose (next_session s); EEnd "middletier:Unsubscribe"] s).
Proof.
  intros He Hc Hx. destruct s as [t lv n tr st b].
  unfold serve, Opentracing.Unsubscribe. rewrite He.
  unfold Opentracing.traced, Opentracing.GetCassandraSession,
    Opentracing.traced, CreateSession, Exec_delete.
  rewrite Hc, Hx. go_run. unfold written. f_equal. state_eq.
Qed.

(** Without a span context the traced handlers return at once. *)
Lemma Opentracing_early_return err :
  Extract env (Header req) = inr err →
  serve (Opentracing.FetchFeed env) req s = (Done tt, fresh_writer s)
  ∧ serve (Opentracing.Subscribe env) req s = (Done tt, fresh_writer s)
  ∧ serve (Opentracing.Unsubscribe env) req s = (Done tt, fresh_writer s).
Proof.
  intros He.
  unfold serve, Opentracing.FetchFeed, Opentracing.Subscribe,
    Opentracing.Unsubscribe.
  by rewrite He.
Qed.

(** [log.Fatal] sits in front of every [ReturnErrorPage] of the write
    handlers: the process ends, no response is produced. *)
Lemma Middletier_AddFeed_unreachable err :
  CreateSession_err env = Some err →
  serve (Middletier.AddFeed env) req s =
  (Exit 1, died_unconnected [EBegin "AddFeed"; EConnect false; ELog err] s).
Proof.
  intros Hc. destruct s as [t lv n tr st b].
  unfold serve, Middletier.AddFeed, Middletier.monitored,
    Middletier.GetCassandraSession, CreateSession.
  rewrite Hc. go_run. unfold died_unconnected. f_equal. state_eq.
Qed.

Lemma Middletier_DeleteFeed_unreachable err :
  CreateSession_err env = Some err →
  serve (Middletier.DeleteFeed env) req s =
  (Exit 1, died_unconnected [EBegin "DeleteFeed"; EConnect false; ELog err] s).
Proof.
  intros Hc. destruct s as [t lv n tr st b].
  unfold serve, Middletier.DeleteFeed, Middletier.monitored,
    Middletier.GetCassandraSession, CreateSession.
  rewrite Hc. go_run. unfold died_unconnected. f_equal. state_eq.
Qed.

Lemma Middletier_AddFeed_exec_fails err :
  CreateSession_err env = None → Exec_err env = Some err →
  serve (Middletier.AddFeed env) req s =
  (Exit 1,
   died_connected [EBegin "AddFeed"; EConnect true;
                   EInsert (vars_get req "user") (FormValue req "url") "1"; ELog err] s).
Proof.
  intros Hc Hx. destruct s as [t lv n tr st b].
  unfold serve, Middletier.AddFeed, Middletier.monitored,
    Middletier.GetCassandraSession, CreateSession, Exec_insert.
  rewrite Hc, Hx. go_run. unfold died_connected. f_equal. state_eq.
Qed.

Lemma Middletier_DeleteFeed_exec_fails err :
  CreateSession_err env = None → Exec_err env = Some err →
  serve (Middletier.DeleteFeed env) req s =
  (Exit 1,
   died_connected [EBegin "DeleteFeed"; EConnect true;
                   EDelete (vars_get req "user") (FormValue req "url"); ELog err] s).
Proof.
  intros Hc Hx. destruct s as [t lv n tr st b].
  unfold serve, Middletier.DeleteFeed, Middletier.monitored,
    Middletier.GetCassandraSession, CreateSession, Exec_delete.
  rewrite Hc, Hx. go_run. unfold died_connected. f_equal. state_eq.
Qed.

Lemma Opentracing_Subscribe_unreachable ctx err :
  Extract env (Header req) = inl ctx →
  CreateSession_err env = Some err →
  serve (Opentracing.Subscribe env) req s =
  (Exit 1,
   died_unconnected [EBegin "middletier:Subscribe";
                     EBegin "middletier:GetCassandraSession"; EConnect false;
                     EEnd "middletier:GetCassandraSession"; ELog err] s).
Proof.
  intros He Hc. destruct s as [t lv n tr st b].
  unfold serve, Opentracing.Subscribe. rewrite He.
  unfold Opentracing.traced, Opentracing.GetCassandraSession,
    Opentracing.traced, CreateSession.
  rewrite Hc. go_run. unfold died_unconnected. f_equal. state_eq.
Qed.

Lemma Opentracing_Unsubscribe_unreachable ctx err :
  Extract env (Header req) = inl ctx →
  CreateSession_err env = Some err →
  serve (Opentracing.Unsubscribe env) req s =
  (Exit 1,
   died_unconnected [EBegin "middletier:Unsubscribe";
                     EBegin "middletier:GetCassandraSession"; EConnect false;
                     EEnd "middletier:GetCassandraSession"; ELog err] s).
Proof.
  intros He Hc. destruct s as [t lv n tr st b].
  unfold serve, Opentracing.Unsubscribe. rewrite He.
  unfold Opentracing.traced, Opentracing.GetCassandraSession,
    Opentracing.traced, CreateSession.
  rewrite Hc. go_run. unfold died_unconnected. f_equal. state_eq.
Qed.

Lemma Opentracing_Subscribe_exec_fails ctx err :
  Extract env (Header req) = inl ctx →
  CreateSession_err env = None → Exec_err env = Some err →
  serve (Opentracing.Subscribe env) req s =
  (Exit 1,
   died_connected [EBegin "middletier:Subscribe";
                   EBegin "middletier:GetCassandraSession"; EConnect true;
                   EEnd "middletier:GetCassandraSession";
                   EInsert (vars_get req "user") (FormValue req "url") "1"; ELog err] s).
Proof.
  intros He Hc Hx. destruct s as [t lv n tr st b].
  unfold serve, Opentracing.Subscribe. rewrite He.
  unfold Opentracing.traced, Opentracing.GetCassandraSession,
    Opentracing.traced, CreateSession, Exec_insert.
  rewrite Hc, Hx. go_run. unfold died_connected. f_equal. state_eq.
Qed.

Lemma Opentracing_Unsubscribe_exec_fails ctx err :
  Extract env (Header req) = inl ctx →
  CreateSession_err env = None → Exec_err env = Some err →
  serve (Opentracing.Unsubscribe env) req s =
  (Exit 1,
   died_connected [EBegin "middletier:Unsubscribe";
                   EBegin "middletier:GetCassandraSession"; EConnect true;
                   EEnd "middletier:GetCassandraSession";
                   EDelete (vars_get req "user") (FormValue req "url"); ELog err] s).
Proof.
  intros He Hc Hx. destruct s as [t lv n tr st b].
  unfold serve, Opentracing.Unsubscribe. rewrite He.
  unfold Opentracing.traced, Opentracing.GetCassandraSession,
    Opentracing.traced, CreateSession, Exec_delete.
  rewrite Hc, Hx. go_run. unfold died_connected. f_equal. state_eq.
Qed.

End WriteHandlers.

(** ** Rows of the table *)

Lemma filter_key_unique {K V} `{EqDecision K} (l : list (K * V)) k v :
  NoDup (l.*1) → (k, v) ∈ l → filter (fun r => fst r = k) l = [(k, v)].
Proof.
  induction l as [|[k' v'] l IH]; intros Hnd Hin.
  - by apply elem_of_nil in Hin.
  - cbn in Hnd. apply NoDup_cons in Hnd as [Hk' Hnd].
    assert (Hnone : ∀ l' : list (K * V), k ∉ l'.*1 →
              filter (fun r => fst r = k) l' = []).
    { clear. induction l' as [|[a b] l' IH']; intros Hk; [done|].
      cbn in Hk. apply not_elem_of_cons in Hk as [Hne Hk].
      rewrite filter_cons_False by (cbn; congruence). by apply IH'. }
    apply elem_of_cons in Hin as [Heq|Hin].
    + inversion Heq; subst k' v'.
      rewrite filter_cons_True by done. f_equal. by apply Hnone.
    + assert (k' ≠ k).
      { intros ->. apply Hk'. apply list_elem_of_fmap. by exists (k, v). }
      rewrite filter_cons_False by done. by apply IH.
Qed.

Lemma rows_of_present t user feedURL v :
  t !! (user, feedURL) = Some v → rows_of t user feedURL = [((user, feedURL), v)].
Proof.
  intros Hl. unfold rows_of. apply filter_key_unique.
  - apply NoDup_fst_map_to_list.
  - by apply elem_of_map_to_list.
Qed.

(** * The claims *)

(** C1 (violated by [Middletier.GetFeed]). The claim: one feed that fails to
    fetch is skipped and the request still answers 200 with the other feeds.
    With alice subscribed to a.example (which answers) and b.example (which
    times out), [GetFeed] of [src/middletier.go] writes [FeedLink] through the
    nil pointer [ParseURL] returned, panics and completes no response, while
    [FetchFeed] of the opentracing service skips b.example and answers 200
    with the feed of a.example. *)
Theorem C1_GetFeed_aborts_on_one_failed_feed :
  fetch_ok env_ok url_a = true ∧ fetch_ok env_ok url_b = false
  ∧ fst (serve (Middletier.GetFeed env_ok) (req_alice [] "") (state0 table_ab))
    = Panic "runtime error: invalid memory address or nil pointer dereference"
  ∧ response (serve (Middletier.GetFeed env_ok) (req_alice [] "") (state0 table_ab))
    = None
  ∧ response (serve (Opentracing.FetchFeed env_ok) (req_alice traced_header "")
                    (state0 table_ab))
    = Some (StatusOK, payload env_ok [set_FeedLink url_a feed_a]).
Proof. repeat split; vm_compute; reflexivity. Qed.

(** C2 (violated by [Middletier.GetFeed]). The claim: the payload holds one
    feed per subscribed URL whose fetch succeeds, in store order. With the
    store returning a.example then b.example and only a.example answering,
    the expected collection is the one feed of a.example, but [GetFeed] of
    [src/middletier.go] panics at b.example: nothing is encoded, the body
    stays empty. *)
Theorem C2_GetFeed_payload_lost_on_failed_feed :
  let r := serve (Middletier.GetFeed env_ok) (req_alice [] "") (state0 table_ab) in
  select_column1 table_ab "alice" = [url_a; url_b]
  ∧ successful_feeds env_ok [url_a; url_b] = [set_FeedLink url_a feed_a]
  ∧ body (snd r) = ""
  ∧ status (snd r) = None
  ∧ response r ≠ Some (StatusOK, payload env_ok [set_FeedLink url_a feed_a]).
Proof. repeat split; try (vm_compute; reflexivity). vm_compute. discriminate. Qed.

(** C3 (violated by every handler). The claim: a failed query or write on an
    open connection aborts the request with a 500 carrying the error text.
    In every handler [log.Fatal(err)] precedes the error page, so the process
    ends with exit code 1: no status is set and no response is completed, for
    the failed read of a fetch and for the failed insert and delete alike. *)
Theorem C3_store_operation_failure_exits_process :
  let died (r : Outcome unit * State) :=
    fst r = Exit 1 ∧ status (snd r) = None ∧ body (snd r) = ""
    ∧ response r = None in
  died (serve (Middletier.GetFeed env_iter_fails) (req_alice [] "") (state0 table_ab))
  ∧ died (serve (Opentracing.FetchFeed env_iter_fails)
                (req_alice traced_header "") (state0 table_ab))
  ∧ died (serve (Middletier.AddFeed env_exec_fails) (req_alice [] url_a) (state0 ∅))
  ∧ died (serve (Opentracing.Subscribe env_exec_fails)
                (req_alice traced_header url_a) (state0 ∅))
  ∧ died (serve (Middletier.DeleteFeed env_exec_fails)
                (req_alice [] url_a) (state0 table_ab))
  ∧ died (serve (Opentracing.Unsubscribe env_exec_fails)
                (req_alice traced_header url_a) (state0 table_ab)).
Proof. repeat split; vm_compute; reflexivity. Qed.

(** C4 (violated by the write handlers). The claim: with the store
    unreachable, fetch, subscribe and unsubscribe all answer 500 and write
    nothing. Fetch does answer 500, and no handler writes; but subscribe and
    unsubscribe call [log.Fatal(err)] before the error page, so the process
    exits with code 1 and the client gets no response at all. *)
Theorem C4_unreachable_store_exits_in_write_handlers :
  let s := state0 table_ab in
  let no_write (r : Outcome unit * State) :=
    table (snd r) = table s ∧ filter (fun e => is_write e = true) (trace (snd r)) = [] in
  let fetch1 := serve (Middletier.GetFeed env_unreachable) (req_alice [] "") s in
  let fetch2 := serve (Opentracing.FetchFeed env_unreachable)
                      (req_alice traced_header "") s in
  let add1 := serve (Middletier.AddFeed env_unreachable) (req_alice [] url_a) s in
  let add2 := serve (Opentracing.Subscribe env_unreachable)
                    (req_alice traced_header url_a) s in
  let del1 := serve (Middletier.DeleteFeed env_unreachable) (req_alice [] url_a) s in
  let del2 := serve (Opentracing.Unsubscribe env_unreachable)
                    (req_alice traced_header url_a) s in
  response fetch1 = Some (StatusInternalServerError, "Cannot connect to cassandra")
  ∧ response fetch2 = Some (StatusInternalServerError, "Cannot connect to cassandra")
  ∧ (fst add1 = Exit 1 ∧ response add1 = None)
  ∧ (fst add2 = Exit 1 ∧ response add2 = None)
  ∧ (fst del1 = Exit 1 ∧ response del1 = None)
  ∧ (fst del2 = Exit 1 ∧ response del2 = None)
  ∧ no_write fetch1 ∧ no_write fetch2 ∧ no_write add1 ∧ no_write add2
  ∧ no_write del1 ∧ no_write del2.
Proof. repeat split; vm_compute; reflexivity. Qed.

(** C5. Subscribing the same (user, url) pair twice leaves the table as one
    subscribe leaves it, with exactly one row under that pair; both requests
    answer 200 with an empty body. For the traced service this is the case
    of requests that carry a span context. *)
Theorem C5_subscribe_twice_is_subscribe_once env env' req s :
  CreateSession_err env = None → Exec_err env = None →
  CreateSession_err env' = None → Exec_err env' = None →
  let user := vars_get req "user" in
  let feedURL := FormValue req "url" in
  let idempotent (first second : Request → Go unit) :=
    let once := snd (serve first req s) in
    let twice := snd (serve second req once) in
    response (serve first req s) = Some (StatusOK, "")
    ∧ response (serve second req once) = Some (StatusOK, "")
    ∧ table twice = table once
    ∧ rows_of (table twice) user feedURL = [((user, feedURL), "1")] in
  idempotent (Middletier.AddFeed env) (Middletier.AddFeed env')
  ∧ (∀ ctx ctx',
       Extract env (Header req) = inl ctx →
       Extract env' (Header req) = inl ctx' →
       idempotent (Opentracing.Subscribe env) (Opentracing.Subscribe env')).
Proof.
  intros Hc Hx Hc' Hx'. cbv zeta. split.
  - rewrite Middletier_AddFeed_ok by done. cbn [snd fst].
    rewrite Middletier_AddFeed_ok by done. cbn [snd fst response].
    unfold written; cbn [table status body].
    rewrite insert_insert_eq. repeat split.
    apply rows_of_present, lookup_insert_eq.
  - intros ctx ctx' He He'.
    rewrite (Opentracing_Subscribe_ok _ _ _ ctx) by done. cbn [snd fst].
    rewrite (Opentracing_Subscribe_ok _ _ _ ctx') by done.
    cbn [snd fst response].
    unfold written; cbn [table status body].
    rewrite insert_insert_eq. repeat split.
    apply rows_of_present, lookup_insert_eq.
Qed.

Lemma C5_subscribe_twice_witness :
  CreateSession_err env_ok = None ∧ Exec_err env_ok = None
  ∧ (let req := req_alice traced_header url_a in
     let once := snd (serve (Middletier.AddFeed env_ok) req (state0 table_b)) in
     let twice := snd (serve (Middletier.AddFeed env_ok) req once) in
     table twice = table once
     ∧ rows_of (table twice) "alice" url_a = [(("alice", url_a), "1")]).
Proof.
  split; [reflexivity|]. split; [reflexivity|].
  destruct (C5_subscribe_twice_is_subscribe_once env_ok env_ok
              (req_alice traced_header url_a) (state0 table_b)
              eq_refl eq_refl eq_refl eq_refl) as [(_ & _ & Ht & Hr) _].
  split; [exact Ht | exact Hr].
Defined.

(** C6. Unsubscribing a (user, url) pair that is not subscribed answers 200
    with an empty body, logs nothing and leaves the table as it was: the
    delete is sent without looking the row up. *)
Theorem C6_unsubscribe_absent_succeeds env req s :
  table s !! (vars_get req "user", FormValue req "url") = None →
  CreateSession_err env = None → Exec_err env = None →
  let silent (r : Outcome unit * State) :=
    response r = Some (StatusOK, "")
    ∧ table (snd r) = table s
    ∧ filter (fun e => is_log e = true) (trace (snd r))
      = filter (fun e => is_log e = true) (trace s) in
  silent (serve (Middletier.DeleteFeed env) req s)
  ∧ silent (serve (Opentracing.Unsubscribe env) req s).
Proof.
  intros Habs Hc Hx. cbv zeta. split.
  - rewrite Middletier_DeleteFeed_ok by done.
    unfold written; cbn [snd response status body table trace default].
    rewrite delete_id by done. rewrite filter_app.
    repeat split. cbn. by rewrite app_nil_r.
  - destruct (Extract env (Header req)) as [ctx|err] eqn:He.
    + rewrite (Opentracing_Unsubscribe_ok _ _ _ ctx) by done.
      unfold written; cbn [snd response status body table trace default].
      rewrite delete_id by done. rewrite filter_app.
      repeat split. cbn. by rewrite app_nil_r.
    + destruct (Opentracing_early_return env req s err He) as (_ & _ & ->).
      by destruct s.
Qed.

Lemma C6_unsubscribe_absent_witness :
  table (state0 table_b) !! ("alice", url_a) = None
  ∧ CreateSession_err env_ok = None ∧ Exec_err env_ok = None
  ∧ response (serve (Middletier.DeleteFeed env_ok) (req_alice [] url_a)
                    (state0 table_b)) = Some (StatusOK, "")
  ∧ response (serve (Opentracing.Unsubscribe env_ok)
                    (req_alice traced_header url_a) (state0 table_b))
    = Some (StatusOK, "").
Proof.
  split; [vm_compute; reflexivity|]. split; [reflexivity|].
  split; [reflexivity|].
  split.
  - apply (C6_unsubscribe_absent_succeeds env_ok (req_alice [] url_a)
             (state0 table_b)); vm_compute; reflexivity.
  - apply (C6_unsubscribe_absent_succeeds env_ok
             (req_alice traced_header url_a) (state0 table_b));
      vm_compute; reflexivity.
Defined.

(** C7. Every feed of a fetch response is the parsed feed of a subscribed
    URL whose fetch succeeded, with [FeedLink] set to that URL whatever link
    the document declared. The payload of [FetchFeed] is built from exactly
    these feeds; so is the payload of [GetFeed] whenever it produces one. *)
Theorem C7_FeedLink_is_requested_url env req s :
  CreateSession_err env = None → Iter_err env = None →
  let feedURLs := select_column1 (table s) (vars_get req "user") in
  let feeds := successful_feeds env feedURLs in
  Forall2 (fun feedURL feed =>
             FeedLink feed = feedURL
             ∧ ∃ parsed, ParseURL env feedURL = inl parsed
                         ∧ feed = set_FeedLink feedURL parsed)
          (filter (fun u => fetch_ok env u = true) feedURLs) feeds
  ∧ (∀ ctx, Extract env (Header req) = inl ctx →
            response (serve (Opentracing.FetchFeed env) req s)
            = Some (StatusOK, payload env feeds))
  ∧ (Forall (fun u => fetch_ok env u = true) feedURLs →
     response (serve (Middletier.GetFeed env) req s)
     = Some (StatusOK, payload env feeds)).
Proof.
  intros Hc Hi. cbv zeta. split; [apply successful_feeds_FeedLink|]. split.
  - intros ctx He. by apply (Opentracing_FetchFeed_ok _ _ _ ctx).
  - intros Hall. by apply Middletier_GetFeed_all_ok.
Qed.

Lemma C7_FeedLink_witness :
  CreateSession_err env_ok = None ∧ Iter_err env_ok = None
  ∧ Link feed_a ≠ url_a ∧ FeedLink feed_a ≠ url_a
  ∧ response (serve (Opentracing.FetchFeed env_ok) (req_alice traced_header "")
                    (state0 table_ab))
    = Some (StatusOK, payload env_ok [set_FeedLink url_a feed_a]).
Proof.
  split; [reflexivity|]. split; [reflexivity|].
  split; [vm_compute; discriminate|]. split; [vm_compute; discriminate|].
  destruct (C7_FeedLink_is_requested_url env_ok (req_alice traced_header "")
              (state0 table_ab) eq_refl eq_refl) as (_ & H & _).
  rewrite (H "span" eq_refl). vm_compute. reflexivity.
Defined.

(** On the path where the listing succeeds the session is released before
    [GetUrls] returns. *)
Lemma GetUrls_releases_session_on_success env user s :
  CreateSession_err env = None → Iter_err env = None →
  (next_session s ∉ live (snd (Middletier.GetUrls env user s)))
  ∧ (next_session s ∉ live (snd (Opentracing.GetUrls env user s))).
Proof.
  intros Hc Hi.
  rewrite (Middletier_GetUrls_ok env user s Hc Hi).
  rewrite (Opentracing_GetUrls_ok env user s Hc Hi).
  cbn. split; intros [_ Hn]%elem_of_difference; apply Hn;
    by apply elem_of_singleton.
Qed.

(** C8 (violated on the failure path). The claim: once a session is open,
    [GetUrls] releases it before returning on every exit path, iteration
    failure included. When [iter.Close()] reports an error, [log.Fatal(err)]
    ends the process: the call does not return, the deferred
    [session.Close()] does not run and session 0 is still open; on the
    successful path the same call closes it. *)
Theorem C8_GetUrls_iteration_failure_skips_Close :
  let failed1 := Middletier.GetUrls env_iter_fails "alice" (state0 table_ab) in
  let failed2 := Opentracing.GetUrls env_iter_fails "alice" (state0 table_ab) in
  let listed := Middletier.GetUrls env_ok "alice" (state0 table_ab) in
  (fst failed1 = Exit 1
   ∧ live (snd failed1) = {[0%nat]}
   ∧ trace (snd failed1)
     = [EBegin "GetUrls"; EConnect true; ESelect "alice";
        ELog "gocql: no response received"])
  ∧ (fst failed2 = Exit 1
     ∧ live (snd failed2) = {[0%nat]}
     ∧ trace (snd failed2)
       = [EBegin "middletier:GetUrls"; EBegin "middletier:GetCassandraSession";
          EConnect true; EEnd "middletier:GetCassandraSession";
          ESelect "alice"; ELog "gocql: no response received"])
  ∧ (fst listed = Done (inl [url_a; url_b])
     ∧ live (snd listed) = ∅
     ∧ trace (snd listed)
       = [EBegin "GetUrls"; EConnect true; ESelect "alice"; EClose 0;
          EEnd "GetUrls"]).
Proof. repeat split; vm_compute; reflexivity. Qed.

(** C9. In the opentracing service a request whose headers carry no
    extractable span context makes [FetchFeed], [Subscribe] and
    [Unsubscribe] return at once: the table, the sessions and the trace of
    effects are what they were, nothing is logged, and the client reads an
    implicit 200 with an empty body. *)
Theorem C9_no_span_context_returns_at_once env req s err :
  Extract env (Header req) = inr err →
  let untouched (r : Outcome unit * State) :=
    fst r = Done tt
    ∧ table (snd r) = table s
    ∧ live (snd r) = live s
    ∧ trace (snd r) = trace s
    ∧ status (snd r) = None
    ∧ response r = Some (StatusOK, "") in
  untouched (serve (Opentracing.FetchFeed env) req s)
  ∧ untouched (serve (Opentracing.Subscribe env) req s)
  ∧ untouched (serve (Opentracing.Unsubscribe env) req s).
Proof.
  intros He. cbv zeta.
  destruct (Opentracing_early_return env req s err He) as (-> & -> & ->).
  by destruct s.
Qed.

Lemma C9_no_span_context_witness :
  Extract env_ok (Header (req_alice [] url_a))
  = inr "opentracing: SpanContext not found in Extract carrier"
  ∧ table (snd (serve (Opentracing.Subscribe env_ok) (req_alice [] url_a)
                      (state0 table_b))) = table_b
  ∧ response (serve (Opentracing.Subscribe env_ok) (req_alice [] url_a)
                    (state0 table_b)) = Some (StatusOK, "").
Proof.
  split; [reflexivity|].
  destruct (C9_no_span_context_returns_at_once env_ok (req_alice [] url_a)
              (state0 table_b) _ eq_refl)
    as (_ & (_ & Ht & _ & _ & _ & Hr) & _).
  split; [exact Ht | exact Hr].
Defined.

(** A nil [Feeds] slice is serialised as [null], any other as an array. *)
Lemma payload_nil env :
  payload env [] = "{" +:+ dquote +:+ "Feeds" +:+ dquote +:+ ":null}" +:+ newline.
Proof. reflexivity. Qed.

Lemma payload_cons env feed feeds :
  payload env (feed :: feeds)
  = encodeSubscription (encodeFeed env) (mkSubscription (Some (feed :: feeds)))
    +:+ newline.
Proof. unfold payload. by rewrite foldl_append_None. Qed.

(** With no subscription at all both services answer 200 with a null
    [Feeds]. *)
Lemma fetch_empty_subscription env req s ctx :
  CreateSession_err env = None → Iter_err env = None →
  select_column1 (table s) (vars_get req "user") = [] →
  Extract env (Header req) = inl ctx →
  response (serve (Middletier.GetFeed env) req s) = Some (StatusOK, payload env [])
  ∧ response (serve (Opentracing.FetchFeed env) req s)
    = Some (StatusOK, payload env []).
Proof.
  intros Hc Hi Hnil He. split.
  - rewrite Middletier_GetFeed_all_ok by (try done; rewrite Hnil; constructor).
    by rewrite Hnil.
  - rewrite (Opentracing_FetchFeed_ok _ _ _ ctx) by done. by rewrite Hnil.
Qed.

(** When every feed fails, the traced service still answers 200 with a null
    [Feeds]. *)
Lemma Opentracing_FetchFeed_all_fail env req s ctx :
  Extract env (Header req) = inl ctx →
  CreateSession_err env = None → Iter_err env = None →
  Forall (fun u => fetch_ok env u = false)
         (select_column1 (table s) (vars_get req "user")) →
  response (serve (Opentracing.FetchFeed env) req s)
  = Some (StatusOK, payload env []).
Proof.
  intros He Hc Hi Hall.
  rewrite (Opentracing_FetchFeed_ok _ _ _ ctx) by done.
  by rewrite successful_feeds_none.
Qed.

(** C10 (violated by [Middletier.GetFeed]). The claim: a user with no
    subscription, or whose feeds all fail to fetch, still gets a 200 whose
    [Feeds] is JSON [null]. With alice subscribed to b.example only, which
    times out, [FetchFeed] answers 200 with [{"Feeds":null}], but [GetFeed]
    of [src/middletier.go] dereferences the nil feed, panics and answers
    nothing. *)
Theorem C10_GetFeed_all_feeds_failing_is_no_null_payload :
  let r := serve (Middletier.GetFeed env_ok) (req_alice [] "") (state0 table_b) in
  select_column1 table_b "alice" = [url_b]
  ∧ fetch_ok env_ok url_b = false
  ∧ fst r = Panic "runtime error: invalid memory address or nil pointer dereference"
  ∧ body (snd r) = ""
  ∧ response r = None
  ∧ response (serve (Opentracing.FetchFeed env_ok) (req_alice traced_header "")
                    (state0 table_b))
    = Some (StatusOK, "{" +:+ dquote +:+ "Feeds" +:+ dquote +:+ ":null}" +:+ newline).
Proof. repeat split; vm_compute; reflexivity. Qed.

(** * Further properties of the handlers *)

(** ** Complete runs *)

Lemma Middletier_feed_loop_run env feedURLs subscription s :
  Middletier.feed_loop env feedURLs subscription s =
  (if forallb (fetch_ok env) feedURLs
   then Done (mkSubscription
                (foldl append (Feeds subscription)
                       (successful_feeds env feedURLs)))
   else Panic nil_dereference,
   emit_all (EFetch <$> attempted env feedURLs) s).
Proof.
  revert subscription s.
  induction feedURLs as [|u l IH]; intros [feeds] s.
  - simpl. by rewrite emit_all_nil.
  - cbn [Middletier.feed_loop forallb attempted].
    unfold mbind at 1, Go_bind, bind, Parser_ParseURL.
    unfold successful_feeds, fetch_ok at 1 3.
    cbn [omap list_omap fmap list_fmap].
    destruct (ParseURL env u) as [f|e]; cbn [Feeds foldl andb].
    + rewrite IH. by rewrite emit_emit_all.
    + unfold panic. cbn [fmap list_fmap]. reflexivity.
Qed.

Lemma attempted_all_ok env feedURLs :
  forallb (fetch_ok env) feedURLs = true → attempted env feedURLs = feedURLs.
Proof.
  induction feedURLs as [|u l IH]; [done|]. cbn.
  destruct (fetch_ok env u); [|done]. cbn. intros H. by rewrite IH.
Qed.

Lemma Middletier_GetFeed_listed env req s :
  CreateSession_err env = None → Iter_err env = None →
  serve (Middletier.GetFeed env) req s =
  (if forallb (fetch_ok env) (select_column1 (table s) (vars_get req "user"))
   then Done tt else Panic nil_dereference,
   mkState (table s)
     (({[next_session s]} ∪ live s) ∖ {[next_session s]})
     (S (next_session s))
     (trace s ++
      [EBegin "GetFeed"; EBegin "GetUrls"; EConnect true;
       ESelect (vars_get req "user"); EClose (next_session s); EEnd "GetUrls"] ++
      (EFetch <$> attempted env
                    (select_column1 (table s) (vars_get req "user"))) ++
      [EEnd "GetFeed"])
     (if forallb (fetch_ok env) (select_column1 (table s) (vars_get req "user"))
      then Some StatusOK else None)
     (if forallb (fetch_ok env) (select_column1 (table s) (vars_get req "user"))
      then payload env (successful_feeds env
                          (select_column1 (table s) (vars_get req "user")))
      else "")).
Proof.
  intros Hc Hi. unfold serve, Middletier.GetFeed.
  unfold Middletier.monitored, mbind, Go_bind, bind, defer, modify.
  rewrite Middletier_GetUrls_ok by done.
  rewrite Middletier_feed_loop_run.
  destruct s as [t lv n tr st b]. cbn [table fresh_writer emit emit_all session_used].
  destruct (forallb _ _); cbn; f_equal; unfold emit_all, emit; cbn;
    f_equal; rewrite <- ?app_assoc; reflexivity.
Qed.

Lemma Middletier_GetFeed_iter_fails_run env req s k err :
  CreateSession_err env = None → Iter_err env = Some (k, err) →
  serve (Middletier.GetFeed env) req s =
  (Exit 1,
   died_connected [EBegin "GetFeed"; EBegin "GetUrls"; EConnect true;
                   ESelect (vars_get req "user"); ELog err] s).
Proof.
  intros Hc Hi. unfold serve, Middletier.GetFeed.
  unfold Middletier.monitored, mbind, Go_bind, bind, defer, modify.
  rewrite (Middletier_GetUrls_iter_fails _ _ _ k err) by done.
  destruct s as [t lv n tr st b]. unfold died_connected. f_equal.
  unfold emit_all, emit, session_leaked, fresh_writer; cbn.
  f_equal. rewrite <- ?app_assoc. reflexivity.
Qed.

Lemma Opentracing_FetchFeed_listed env req s ctx :
  Extract env (Header req) = inl ctx →
  CreateSession_err env = None → Iter_err env = None →
  serve (Opentracing.FetchFeed env) req s =
  (Done tt,
   mkState (table s)
     (({[next_session s]} ∪ live s) ∖ {[next_session s]})
     (S (next_session s))
     (trace s ++
      [EBegin "middletier:FetchFeed"; EBegin "middletier:GetUrls";
       EBegin "middletier:GetCassandraSession"; EConnect true;
       EEnd "middletier:GetCassandraSession";
       ESelect (vars_get req "user"); EClose (next_session s);
       EEnd "middletier:GetUrls"] ++
      fetch_events (select_column1 (table s) (vars_get req "user")) ++
      [EEnd "middletier:FetchFeed"])
     (Some StatusOK)
     (payload env (successful_feeds env
                     (select_column1 (table s) (vars_get req "user"))))).
Proof.
  intros He Hc Hi. unfold serve, Opentracing.FetchFeed. rewrite He.
  unfold Opentracing.traced, mbind, Go_bind, bind, defer, modify.
  rewrite Opentracing_GetUrls_ok by done.
  rewrite Opentracing_feed_loop_total.
  destruct s as [t lv n tr st b]. cbn. f_equal.
  unfold emit_all, emit; cbn. f_equal. rewrite <- ?app_assoc. reflexivity.
Qed.

Lemma Opentracing_FetchFeed_iter_fails_run env req s ctx k err :
  Extract env (Header req) = inl ctx →
  CreateSession_err env = None → Iter_err env = Some (k, err) →
  serve (Opentracing.FetchFeed env) req s =
  (Exit 1,
   died_connected [EBegin "middletier:FetchFeed"; EBegin "middletier:GetUrls";
                   EBegin "middletier:GetCassandraSession"; EConnect true;
                   EEnd "middletier:GetCassandraSession";
                   ESelect (vars_get req "user"); ELog err] s).
Proof.
  intros He Hc Hi. unfold serve, Opentracing.FetchFeed. rewrite He.
  unfold Opentracing.traced, mbind, Go_bind, bind, defer, modify.
  rewrite (Opentracing_GetUrls_iter_fails _ _ _ k err) by done.
  destruct s as [t lv n tr st b]. unfold died_connected. f_equal.
  unfold emit_all, emit, session_leaked, fresh_writer; cbn.
  f_equal. rewrite <- ?app_assoc. reflexivity.
Qed.

(** ** What ends up in the trace *)

Lemma filter_write_fetches (feedURLs : list string) :
  filter (fun e => is_write e = true) (EFetch <$> feedURLs) = [].
Proof. induction feedURLs as [|u l IH]; [done|]. cbn. exact IH. Qed.

Lemma filter_write_fetch_events (feedURLs : list string) :
  filter (fun e => is_write e = true) (fetch_events feedURLs) = [].
Proof. induction feedURLs as [|u l IH]; [done|]. cbn. exact IH. Qed.

Lemma filter_fetch_fetches (feedURLs : list string) :
  filter (fun e => is_fetch e = true) (EFetch <$> feedURLs) = EFetch <$> feedURLs.
Proof.
  induction feedURLs as [|u l IH]; [done|].
  rewrite fmap_cons, filter_cons_True by done. by rewrite IH.
Qed.

Lemma filter_fetch_fetch_events (feedURLs : list string) :
  filter (fun e => is_fetch e = true) (fetch_events feedURLs) = EFetch <$> feedURLs.
Proof.
  induction feedURLs as [|u l IH]; [done|].
  change (fetch_events (u :: l))
    with ([EBegin "middletier:FetchFeedContents"; EFetch u;
           EEnd "middletier:FetchFeedContents"] ++ fetch_events l).
  rewrite filter_app, IH. reflexivity.
Qed.

Lemma brackets_app opened es1 es2 :
  brackets opened (es1 ++ es2) = brackets opened es1 ≫= fun o => brackets o es2.
Proof.
  revert opened. induction es1 as [|e es1 IH]; intros opened; [done|].
  destruct e; cbn; try apply IH.
  destruct opened as [|top opened']; [done|].
  destruct (String.eqb name top); [apply IH | done].
Qed.

Lemma brackets_fetches opened (feedURLs : list string) :
  brackets opened (EFetch <$> feedURLs) = Some opened.
Proof. induction feedURLs as [|u l IH]; [done|]. exact IH. Qed.

Lemma brackets_fetch_events opened (feedURLs : list string) :
  brackets opened (fetch_events feedURLs) = Some opened.
Proof. induction feedURLs as [|u l IH]; [done|]. cbn. exact IH. Qed.

(** ** Sessions *)

Lemma sessions_fresh_spec s :
  sessions_fresh s = true ↔ ∀ id, id ∈ live s → (id < next_session s)%nat.
Proof.
  unfold sessions_fresh. rewrite forallb_forall. split.
  - intros H id Hid. apply Nat.ltb_lt, H.
    apply list_elem_of_In. by apply elem_of_elements.
  - intros H id Hid. apply Nat.ltb_lt, H.
    apply elem_of_elements. by apply list_elem_of_In.
Qed.

Lemma session_closed_live (lv : gset nat) (n : nat) :
  (∀ id, id ∈ lv → (id < n)%nat) → ({[n]} ∪ lv) ∖ {[n]} = lv.
Proof.
  intros Hf. apply set_eq. intros id.
  rewrite elem_of_difference, elem_of_union, !elem_of_singleton.
  split; [tauto|]. intros Hid. specialize (Hf id Hid). split; [tauto|lia].
Qed.

Lemma fresh_after_open (lv : gset nat) n :
  (∀ id, id ∈ lv → (id < n)%nat) →
  ∀ id, id ∈ ({[n]} ∪ lv) → (id < S n)%nat.
Proof.
  intros Hf id [->%elem_of_singleton|Hid]%elem_of_union; [lia|].
  specialize (Hf id Hid). lia.
Qed.

Lemma fresh_after_skip (lv : gset nat) n :
  (∀ id, id ∈ lv → (id < n)%nat) → ∀ id, id ∈ lv → (id < S n)%nat.
Proof. intros Hf id Hid. specialize (Hf id Hid). lia. Qed.

(** ** The listing *)

Lemma elem_of_select_column1 t user feedURL :
  feedURL ∈ select_column1 t user ↔ is_Some (t !! (user, feedURL)).
Proof.
  unfold select_column1. rewrite list_elem_of_fmap. split.
  - intros ([[k c] v] & -> & [Hk Hin]%list_elem_of_filter).
    cbn in *. subst k. apply elem_of_map_to_list in Hin. eauto.
  - intros [v Hv]. exists ((user, feedURL), v). split; [done|].
    apply list_elem_of_filter. split; [done|]. by apply elem_of_map_to_list.
Qed.

Lemma NoDup_select_column1 t user : NoDup (select_column1 t user).
Proof.
  unfold select_column1. apply NoDup_fmap_2_strong.
  - intros [[k1 c1] v1] [[k2 c2] v2]
      [Hk1 Hin1]%list_elem_of_filter [Hk2 Hin2]%list_elem_of_filter Hc.
    cbn in *. subst k1 k2 c2.
    apply elem_of_map_to_list in Hin1, Hin2. congruence.
  - apply NoDup_filter, NoDup_map_to_list.
Qed.

(** ** What each handler answers *)

(** X1. The answer of [GetFeed] in every situation: 500 with the fixed text
    when no session can be opened; nothing when the iterator fails (the
    process exits) or when some listed feed fails (the handler panics); and
    200 with every listed feed otherwise. *)
Theorem GetFeed_response env req s :
  response (serve (Middletier.GetFeed env) req s) =
  match CreateSession_err env, Iter_err env with
  | Some _, _ => Some (StatusInternalServerError, "Cannot connect to cassandra")
  | None, Some _ => None
  | None, None =>
      let feedURLs := select_column1 (table s) (vars_get req "user") in
      if forallb (fetch_ok env) feedURLs
      then Some (StatusOK, payload env (successful_feeds env feedURLs))
      else None
  end.
Proof.
  destruct (CreateSession_err env) as [e|] eqn:Hc.
  - by rewrite (Middletier_GetFeed_unreachable _ _ _ e).
  - destruct (Iter_err env) as [[k e]|] eqn:Hi.
    + by rewrite (Middletier_GetFeed_iter_fails_run _ _ _ k e).
    + rewrite Middletier_GetFeed_listed by done. cbv zeta.
      by destruct (forallb _ _).
Qed.

(** X2. The answer of [FetchFeed] in every situation: an empty 200 without a
    span context; 500 with the fixed text when no session can be opened;
    nothing when the iterator fails (the process exits); and otherwise 200
    with the feeds that could be fetched, whatever the others did. *)
Theorem FetchFeed_response env req s :
  response (serve (Opentracing.FetchFeed env) req s) =
  match Extract env (Header req), CreateSession_err env, Iter_err env with
  | inr _, _, _ => Some (StatusOK, "")
  | inl _, Some _, _ =>
      Some (StatusInternalServerError, "Cannot connect to cassandra")
  | inl _, None, Some _ => None
  | inl _, None, None =>
      Some (StatusOK,
            payload env (successful_feeds env
                           (select_column1 (table s) (vars_get req "user"))))
  end.
Proof.
  destruct (Extract env (Header req)) as [ctx|e0] eqn:He.
  - destruct (CreateSession_err env) as [e|] eqn:Hc.
    + by rewrite (Opentracing_FetchFeed_unreachable _ _ _ ctx e).
    + destruct (Iter_err env) as [[k e]|] eqn:Hi.
      * by rewrite (Opentracing_FetchFeed_iter_fails_run _ _ _ ctx k e).
      * by rewrite (Opentracing_FetchFeed_listed _ _ _ ctx).
  - destruct (Opentracing_early_return env req s e0 He) as (-> & _).
    by destruct s.
Qed.



(** ** What the handlers never do *)

(** X5. A fetch request is read-only: whatever the store, the tracer and the
    feeds answer, and however the handler ends, the table is what it was and
    no INSERT or DELETE was sent. *)
Theorem fetch_never_writes env req s :
  let read_only (r : Outcome unit * State) :=
    table (snd r) = table s
    ∧ filter (fun e => is_write e = true) (trace (snd r))
      = filter (fun e => is_write e = true) (trace s) in
  read_only (serve (Middletier.GetFeed env) req s)
  ∧ read_only (serve (Opentracing.FetchFeed env) req s).
Proof.
  cbv zeta. split.
  - destruct (CreateSession_err env) as [e|] eqn:Hc.
    + rewrite (Middletier_GetFeed_unreachable _ _ _ e) by done.
      cbn [snd table trace]. split; [done|].
      rewrite filter_app. cbn. by rewrite app_nil_r.
    + destruct (Iter_err env) as [[k e]|] eqn:Hi.
      * rewrite (Middletier_GetFeed_iter_fails_run _ _ _ k e) by done.
        unfold died_connected. cbn [snd table trace]. split; [done|].
        rewrite filter_app. cbn. by rewrite app_nil_r.
      * rewrite Middletier_GetFeed_listed by done.
        cbn [snd table trace]. split; [done|].
        rewrite !filter_app, filter_write_fetches. cbn. by rewrite app_nil_r.
  - destruct (Extract env (Header req)) as [ctx|e0] eqn:He.
    + destruct (CreateSession_err env) as [e|] eqn:Hc.
      * rewrite (Opentracing_FetchFeed_unreachable _ _ _ ctx e) by done.
        cbn [snd table trace]. split; [done|].
        rewrite filter_app. cbn. by rewrite app_nil_r.
      * destruct (Iter_err env) as [[k e]|] eqn:Hi.
        -- rewrite (Opentracing_FetchFeed_iter_fails_run _ _ _ ctx k e) by done.
           unfold died_connected. cbn [snd table trace]. split; [done|].
           rewrite filter_app. cbn. by rewrite app_nil_r.
        -- rewrite (Opentracing_FetchFeed_listed _ _ _ ctx) by done.
           cbn [snd table trace]. split; [done|].
           rewrite !filter_app, filter_write_fetch_events. cbn.
           by rewrite app_nil_r.
    + destruct (Opentracing_early_return env req s e0 He) as (-> & _).
      by destruct s.
Qed.

(** X6. A subscribe or unsubscribe request leaves every row other than its
    own (user, url) row as it was, however the request ends. *)
Theorem write_handlers_touch_one_row env req s key :
  key ≠ (vars_get req "user", FormValue req "url") →
  table (snd (serve (Middletier.AddFeed env) req s)) !! key = table s !! key
  ∧ table (snd (serve (Middletier.DeleteFeed env) req s)) !! key = table s !! key
  ∧ table (snd (serve (Opentracing.Subscribe env) req s)) !! key = table s !! key
  ∧ table (snd (serve (Opentracing.Unsubscribe env) req s)) !! key
    = table s !! key.
Proof.
  intros Hne.
  assert (Hi : ∀ v, <[(vars_get req "user", FormValue req "url") := v]> (table s)
                      !! key = table s !! key)
    by (intros v; by apply lookup_insert_ne).
  assert (Hd : delete (vars_get req "user", FormValue req "url") (table s)
                 !! key = table s !! key)
    by (by apply lookup_delete_ne).
  destruct (CreateSession_err env) as [e|] eqn:Hc.
  - rewrite (Middletier_AddFeed_unreachable _ _ _ e),
      (Middletier_DeleteFeed_unreachable _ _ _ e) by done.
    destruct (Extract env (Header req)) as [ctx|e0] eqn:He.
    + by rewrite (Opentracing_Subscribe_unreachable _ _ _ ctx e),
        (Opentracing_Unsubscribe_unreachable _ _ _ ctx e).
    + destruct (Opentracing_early_return env req s e0 He) as (_ & -> & ->).
      by destruct s.
  - destruct (Exec_err env) as [e|] eqn:Hx.
    + rewrite (Middletier_AddFeed_exec_fails _ _ _ e),
        (Middletier_DeleteFeed_exec_fails _ _ _ e) by done.
      destruct (Extract env (Header req)) as [ctx|e0] eqn:He.
      * by rewrite (Opentracing_Subscribe_exec_fails _ _ _ ctx e),
          (Opentracing_Unsubscribe_exec_fails _ _ _ ctx e).
      * destruct (Opentracing_early_return env req s e0 He) as (_ & -> & ->).
        by destruct s.
    + rewrite Middletier_AddFeed_ok, Middletier_DeleteFeed_ok by done.
      destruct (Extract env (Header req)) as [ctx|e0] eqn:He.
      * rewrite (Opentracing_Subscribe_ok _ _ _ ctx),
          (Opentracing_Unsubscribe_ok _ _ _ ctx) by done.
        unfold written. cbn [snd table]. auto.
      * destruct (Opentracing_early_return env req s e0 He) as (_ & -> & ->).
        unfold written. cbn [snd table]. destruct s; auto.
Qed.

Lemma write_handlers_touch_one_row_witness :
  ("bob", url_b) ≠ (vars_get (req_alice traced_header url_a) "user",
                    FormValue (req_alice traced_header url_a) "url")
  ∧ table (snd (serve (Middletier.AddFeed env_ok)
                      (req_alice traced_header url_a) (state0 table_b)))
      !! ("bob", url_b) = None.
Proof.
  assert (Hne : ("bob", url_b)
                ≠ (vars_get (req_alice traced_header url_a) "user",
                   FormValue (req_alice traced_header url_a) "url"))
    by (vm_compute; discriminate).
  split; [exact Hne|].
  destruct (write_handlers_touch_one_row env_ok
              (req_alice traced_header url_a) (state0 table_b) _ Hne)
    as (-> & _).
  vm_compute. reflexivity.
Defined.

(** X7. [FetchFeedContents] hands back a feed exactly when it hands back no
    error, so the loop of [FetchFeed] never writes through a nil feed: no
    handler of the traced service panics, whatever the outside answers. *)
Theorem traced_service_never_panics env req s feedURL msg :
  (∃ feed err,
     fst (Opentracing.FetchFeedContents env feedURL s) = Done (feed, err)
     ∧ (is_Some feed ↔ err = None))
  ∧ fst (serve (Opentracing.FetchFeed env) req s) ≠ Panic msg
  ∧ fst (serve (Opentracing.Subscribe env) req s) ≠ Panic msg
  ∧ fst (serve (Opentracing.Unsubscribe env) req s) ≠ Panic msg.
Proof.
  split.
  { rewrite FetchFeedContents_run. cbn [fst].
    destruct (ParseURL env feedURL) as [f|e]; do 2 eexists;
      (split; [reflexivity|]).
    - split; [done|]. intros _. by exists f.
    - split; [intros [? ?]; discriminate | discriminate]. }
  destruct (Extract env (Header req)) as [ctx|e0] eqn:He.
  - destruct (CreateSession_err env) as [e|] eqn:Hc.
    + by rewrite (Opentracing_FetchFeed_unreachable _ _ _ ctx e),
        (Opentracing_Subscribe_unreachable _ _ _ ctx e),
        (Opentracing_Unsubscribe_unreachable _ _ _ ctx e).
    + repeat split.
      * destruct (Iter_err env) as [[k e]|] eqn:Hi.
        -- by rewrite (Opentracing_FetchFeed_iter_fails_run _ _ _ ctx k e).
        -- by rewrite (Opentracing_FetchFeed_listed _ _ _ ctx).
      * destruct (Exec_err env) as [e|] eqn:Hx.
        -- by rewrite (Opentracing_Subscribe_exec_fails _ _ _ ctx e).
        -- by rewrite (Opentracing_Subscribe_ok _ _ _ ctx).
      * destruct (Exec_err env) as [e|] eqn:Hx.
        -- by rewrite (Opentracing_Unsubscribe_exec_fails _ _ _ ctx e).
        -- by rewrite (Opentracing_Unsubscribe_ok _ _ _ ctx).
  - by destruct (Opentracing_early_return env req s e0 He) as (-> & -> & ->).
Qed.

(** ** Network requests *)

Lemma attempted_prefix env feedURLs : attempted env feedURLs `prefix_of` feedURLs.
Proof.
  induction feedURLs as [|u l IH]; [done|]. cbn.
  destruct (fetch_ok env u).
  - by apply prefix_cons.
  - apply prefix_cons, prefix_nil.
Qed.

(** X8. Once the listing succeeded, [FetchFeed] issues exactly one fetch per
    listed URL, in the order of the listing, for the feeds that fail as well
    as for those that answer; no URL is fetched twice. *)
Theorem FetchFeed_fetches_every_listed_url_once env req s ctx :
  Extract env (Header req) = inl ctx →
  CreateSession_err env = None → Iter_err env = None →
  let feedURLs := select_column1 (table s) (vars_get req "user") in
  filter (fun e => is_fetch e = true)
         (trace (snd (serve (Opentracing.FetchFeed env) req s)))
  = filter (fun e => is_fetch e = true) (trace s) ++ (EFetch <$> feedURLs)
  ∧ NoDup feedURLs.
Proof.
  intros He Hc Hi. cbv zeta. split; [|apply NoDup_select_column1].
  rewrite (Opentracing_FetchFeed_listed _ _ _ ctx) by done.
  cbn [snd trace]. rewrite !filter_app, filter_fetch_fetch_events.
  cbn. by rewrite app_nil_r.
Qed.

Lemma FetchFeed_fetches_witness :
  Extract env_ok (Header (req_alice traced_header "")) = inl "span"
  ∧ CreateSession_err env_ok = None ∧ Iter_err env_ok = None
  ∧ filter (fun e => is_fetch e = true)
           (trace (snd (serve (Opentracing.FetchFeed env_ok)
                              (req_alice traced_header "") (state0 table_ab))))
    = [EFetch url_a; EFetch url_b].
Proof.
  split; [reflexivity|]. split; [reflexivity|]. split; [reflexivity|].
  destruct (FetchFeed_fetches_every_listed_url_once env_ok
              (req_alice traced_header "") (state0 table_ab) "span"
              eq_refl eq_refl eq_refl) as [-> _].
  vm_compute. reflexivity.
Defined.

(** X9. Once the listing succeeded, [GetFeed] fetches the listed URLs in
    order and stops after the first one that fails: the fetches it issues are
    a prefix of the listing, and the whole listing when every feed answers. *)
Theorem GetFeed_fetches_until_first_failure env req s :
  CreateSession_err env = None → Iter_err env = None →
  let feedURLs := select_column1 (table s) (vars_get req "user") in
  filter (fun e => is_fetch e = true)
         (trace (snd (serve (Middletier.GetFeed env) req s)))
  = filter (fun e => is_fetch e = true) (trace s)
    ++ (EFetch <$> attempted env feedURLs)
  ∧ attempted env feedURLs `prefix_of` feedURLs
  ∧ (forallb (fetch_ok env) feedURLs = true → attempted env feedURLs = feedURLs)
  ∧ (∀ feedURL rest,
       fetch_ok env feedURL = false →
       attempted env (feedURL :: rest) = [feedURL]).
Proof.
  intros Hc Hi. cbv zeta. split; [|split; [|split]].
  - rewrite Middletier_GetFeed_listed by done.
    cbn [snd trace]. rewrite !filter_app, filter_fetch_fetches.
    cbn. by rewrite app_nil_r.
  - apply attempted_prefix.
  - apply attempted_all_ok.
  - intros u rest Hu. cbn. by rewrite Hu.
Qed.

Lemma GetFeed_fetches_witness :
  CreateSession_err env_ok = None ∧ Iter_err env_ok = None
  ∧ filter (fun e => is_fetch e = true)
           (trace (snd (serve (Middletier.GetFeed env_ok) (req_alice [] "")
                              (state0 table_b))))
    = [EFetch url_b].
Proof.
  split; [reflexivity|]. split; [reflexivity|].
  destruct (GetFeed_fetches_until_first_failure env_ok (req_alice [] "")
              (state0 table_b) eq_refl eq_refl) as [-> _].
  vm_compute. reflexivity.
Defined.

(** ** Sessions are given back *)

Lemma hygiene_closed_live s :
  sessions_fresh s = true →
  ({[next_session s]} ∪ live s) ∖ {[next_session s]} = live s.
Proof.
  intros Hf. apply session_closed_live. by apply sessions_fresh_spec.
Qed.

Lemma hygiene_closed s t es st b :
  sessions_fresh s = true →
  sessions_fresh
    (mkState t (({[next_session s]} ∪ live s) ∖ {[next_session s]})
             (S (next_session s)) es st b) = true.
Proof.
  intros Hf. pose proof (proj1 (sessions_fresh_spec s) Hf) as Hlt.
  rewrite (hygiene_closed_live _ Hf).
  apply sessions_fresh_spec. cbn. by apply fresh_after_skip.
Qed.

Lemma hygiene_leaked s t es st b :
  sessions_fresh s = true →
  sessions_fresh
    (mkState t ({[next_session s]} ∪ live s) (S (next_session s)) es st b)
  = true.
Proof.
  intros Hf. pose proof (proj1 (sessions_fresh_spec s) Hf) as Hlt.
  apply sessions_fresh_spec. cbn. by apply fresh_after_open.
Qed.

Lemma hygiene_same s t es st b :
  sessions_fresh s = true →
  sessions_fresh (mkState t (live s) (next_session s) es st b) = true.
Proof. intros Hf. apply sessions_fresh_spec. cbn. by apply sessions_fresh_spec. Qed.

(** Settles the session bookkeeping of one fully evaluated run. *)
Ltac hygiene Hf :=
  unfold written, died_connected, died_unconnected, fresh_writer;
  cbn [fst snd live];
  first
    [ split; [by apply hygiene_same | done]
    | split; [by apply hygiene_closed | intros _; by apply hygiene_closed_live]
    | split; [by apply hygiene_leaked | intros Hex; by destruct (Hex 1)] ].

(** X10. Session identifiers stay fresh across every request, and a request
    that does not end the process leaves the set of open sessions as it found
    it: whatever a handler opened it has closed, on the paths that return and
    on the path that panics. *)
Theorem handlers_give_back_their_session env req s :
  sessions_fresh s = true →
  let hygienic (r : Outcome unit * State) :=
    sessions_fresh (snd r) = true
    ∧ ((∀ code, fst r ≠ Exit code) → live (snd r) = live s) in
  hygienic (serve (Middletier.GetFeed env) req s)
  ∧ hygienic (serve (Middletier.AddFeed env) req s)
  ∧ hygienic (serve (Middletier.DeleteFeed env) req s)
  ∧ hygienic (serve (Opentracing.FetchFeed env) req s)
  ∧ hygienic (serve (Opentracing.Subscribe env) req s)
  ∧ hygienic (serve (Opentracing.Unsubscribe env) req s).
Proof.
  intros Hf. cbv zeta.
  assert (Hearly : ∀ r : Outcome unit * State,
            r = (Done tt, fresh_writer s) →
            sessions_fresh (snd r) = true
            ∧ ((∀ code, fst r ≠ Exit code) → live (snd r) = live s)).
  { intros r ->. hygiene Hf. }
  destruct (CreateSession_err env) as [e|] eqn:Hc.
  - split; [|split; [|split; [|split; [|split]]]].
    + rewrite (Middletier_GetFeed_unreachable _ _ _ e) by done. hygiene Hf.
    + rewrite (Middletier_AddFeed_unreachable _ _ _ e) by done. hygiene Hf.
    + rewrite (Middletier_DeleteFeed_unreachable _ _ _ e) by done. hygiene Hf.
    + destruct (Extract env (Header req)) as [ctx|e0] eqn:He.
      * rewrite (Opentracing_FetchFeed_unreachable _ _ _ ctx e) by done.
        hygiene Hf.
      * apply Hearly, (Opentracing_early_return env req s e0 He).
    + destruct (Extract env (Header req)) as [ctx|e0] eqn:He.
      * rewrite (Opentracing_Subscribe_unreachable _ _ _ ctx e) by done.
        hygiene Hf.
      * apply Hearly, (Opentracing_early_return env req s e0 He).
    + destruct (Extract env (Header req)) as [ctx|e0] eqn:He.
      * rewrite (Opentracing_Unsubscribe_unreachable _ _ _ ctx e) by done.
        hygiene Hf.
      * apply Hearly, (Opentracing_early_return env req s e0 He).
  - split; [|split; [|split; [|split; [|split]]]].
    + destruct (Iter_err env) as [[k e]|] eqn:Hi.
      * rewrite (Middletier_GetFeed_iter_fails_run _ _ _ k e) by done.
        hygiene Hf.
      * rewrite Middletier_GetFeed_listed by done. hygiene Hf.
    + destruct (Exec_err env) as [e|] eqn:Hx.
      * rewrite (Middletier_AddFeed_exec_fails _ _ _ e) by done. hygiene Hf.
      * rewrite Middletier_AddFeed_ok by done. hygiene Hf.
    + destruct (Exec_err env) as [e|] eqn:Hx.
      * rewrite (Middletier_DeleteFeed_exec_fails _ _ _ e) by done. hygiene Hf.
      * rewrite Middletier_DeleteFeed_ok by done. hygiene Hf.
    + destruct (Extract env (Header req)) as [ctx|e0] eqn:He.
      * destruct (Iter_err env) as [[k e]|] eqn:Hi.
        -- rewrite (Opentracing_FetchFeed_iter_fails_run _ _ _ ctx k e) by done.
           hygiene Hf.
        -- rewrite (Opentracing_FetchFeed_listed _ _ _ ctx) by done.
           hygiene Hf.
      * apply Hearly, (Opentracing_early_return env req s e0 He).
    + destruct (Extract env (Header req)) as [ctx|e0] eqn:He.
      * destruct (Exec_err env) as [e|] eqn:Hx.
        -- rewrite (Opentracing_Subscribe_exec_fails _ _ _ ctx e) by done.
           hygiene Hf.
        -- rewrite (Opentracing_Subscribe_ok _ _ _ ctx) by done. hygiene Hf.
      * apply Hearly, (Opentracing_early_return env req s e0 He).
    + destruct (Extract env (Header req)) as [ctx|e0] eqn:He.
      * destruct (Exec_err env) as [e|] eqn:Hx.
        -- rewrite (Opentracing_Unsubscribe_exec_fails _ _ _ ctx e) by done.
           hygiene Hf.
        -- rewrite (Opentracing_Unsubscribe_ok _ _ _ ctx) by done. hygiene Hf.
      * apply Hearly, (Opentracing_early_return env req s e0 He).
Qed.

Lemma handlers_give_back_witness :
  sessions_fresh (state0 table_ab) = true
  ∧ live (snd (serve (Opentracing.FetchFeed env_ok)
                     (req_alice traced_header "") (state0 table_ab))) = ∅
  ∧ sessions_fresh (snd (serve (Middletier.AddFeed env_exec_fails)
                               (req_alice [] url_a) (state0 table_ab))) = true.
Proof.
  split; [vm_compute; reflexivity|].
  destruct (handlers_give_back_their_session env_ok
              (req_alice traced_header "") (state0 table_ab) eq_refl)
    as (_ & _ & _ & [_ Hlive] & _).
  destruct (handlers_give_back_their_session env_exec_fails
              (req_alice [] url_a) (state0 table_ab) eq_refl)
    as (_ & [Hfresh _] & _).
  split; [|exact Hfresh].
  rewrite Hlive; [reflexivity|]. intros code. vm_compute. discriminate.
Defined.

(** ** Subscribing, unsubscribing and listing together *)

Lemma listing_after_insert t user feedURL v user' u :
  u ∈ select_column1 (<[(user, feedURL) := v]> t) user'
  ↔ u ∈ select_column1 t user' ∨ (user' = user ∧ u = feedURL).
Proof.
  rewrite !elem_of_select_column1, lookup_insert_is_Some'. split.
  - intros [Heq|Hs]; [right|by left]. by inversion Heq.
  - intros [Hs|[-> ->]]; [by right|by left].
Qed.

Lemma listing_after_delete t user feedURL user' u :
  u ∈ select_column1 (delete (user, feedURL) t) user'
  ↔ u ∈ select_column1 t user' ∧ (user', u) ≠ (user, feedURL).
Proof.
  rewrite !elem_of_select_column1, lookup_delete_is_Some. split.
  - intros [Hne Hs]. split; [done|]. congruence.
  - intros [Hs Hne]. split; [congruence|done].
Qed.

(** X11. After a subscribe request that went through, the next listing of
    any user returns, without duplicates, exactly what that user had before,
    plus the new URL in the listing of the subscribing user. *)
Theorem subscribe_then_list env env' req s user' :
  CreateSession_err env = None → Exec_err env = None →
  CreateSession_err env' = None → Iter_err env' = None →
  let grown (listing : Outcome (list string + error)) :=
    ∃ feedURLs,
      listing = Done (inl feedURLs) ∧ NoDup feedURLs
      ∧ ∀ u, u ∈ feedURLs
             ↔ u ∈ select_column1 (table s) user'
               ∨ (user' = vars_get req "user" ∧ u = FormValue req "url") in
  grown (fst (Middletier.GetUrls env' user'
                (snd (serve (Middletier.AddFeed env) req s))))
  ∧ (∀ ctx, Extract env (Header req) = inl ctx →
            grown (fst (Opentracing.GetUrls env' user'
                          (snd (serve (Opentracing.Subscribe env) req s))))).
Proof.
  intros Hc Hx Hc' Hi'. cbv zeta. split; [|intros ctx He].
  - rewrite Middletier_AddFeed_ok, Middletier_GetUrls_ok by done.
    eexists. split; [reflexivity|]. split; [apply NoDup_select_column1|].
    intros u. apply listing_after_insert.
  - rewrite (Opentracing_Subscribe_ok _ _ _ ctx), Opentracing_GetUrls_ok by done.
    eexists. split; [reflexivity|]. split; [apply NoDup_select_column1|].
    intros u. apply listing_after_insert.
Qed.

Lemma subscribe_then_list_witness :
  CreateSession_err env_ok = None ∧ Exec_err env_ok = None
  ∧ Iter_err env_ok = None
  ∧ ∃ feedURLs,
      fst (Middletier.GetUrls env_ok "alice"
             (snd (serve (Middletier.AddFeed env_ok) (req_alice [] url_a)
                         (state0 table_b))))
      = Done (inl feedURLs)
      ∧ url_a ∈ feedURLs ∧ url_b ∈ feedURLs.
Proof.
  split; [reflexivity|]. split; [reflexivity|]. split; [reflexivity|].
  destruct (subscribe_then_list env_ok env_ok (req_alice [] url_a)
              (state0 table_b) "alice" eq_refl eq_refl eq_refl eq_refl)
    as [(l & Hl & _ & Hin) _].
  exists l. split; [exact Hl|]. split; apply Hin.
  - right. split; vm_compute; reflexivity.
  - left. vm_compute. apply list_elem_of_here.
Defined.

(** X12. After an unsubscribe request that went through, the next listing of
    any user returns, without duplicates, exactly what that user had before,
    minus the removed URL in the listing of the unsubscribing user. *)
Theorem unsubscribe_then_list env env' req s user' :
  CreateSession_err env = None → Exec_err env = None →
  CreateSession_err env' = None → Iter_err env' = None →
  let shrunk (listing : Outcome (list string + error)) :=
    ∃ feedURLs,
      listing = Done (inl feedURLs) ∧ NoDup feedURLs
      ∧ ∀ u, u ∈ feedURLs
             ↔ u ∈ select_column1 (table s) user'
               ∧ (user', u) ≠ (vars_get req "user", FormValue req "url") in
  shrunk (fst (Middletier.GetUrls env' user'
                 (snd (serve (Middletier.DeleteFeed env) req s))))
  ∧ (∀ ctx, Extract env (Header req) = inl ctx →
            shrunk (fst (Opentracing.GetUrls env' user'
                           (snd (serve (Opentracing.Unsubscribe env) req s))))).
Proof.
  intros Hc Hx Hc' Hi'. cbv zeta. split; [|intros ctx He].
  - rewrite Middletier_DeleteFeed_ok, Middletier_GetUrls_ok by done.
    eexists. split; [reflexivity|]. split; [apply NoDup_select_column1|].
    intros u. apply listing_after_delete.
  - rewrite (Opentracing_Unsubscribe_ok _ _ _ ctx), Opentracing_GetUrls_ok
      by done.
    eexists. split; [reflexivity|]. split; [apply NoDup_select_column1|].
    intros u. apply listing_after_delete.
Qed.

Lemma unsubscribe_then_list_witness :
  CreateSession_err env_ok = None ∧ Exec_err env_ok = None
  ∧ Iter_err env_ok = None
  ∧ ∃ feedURLs,
      fst (Middletier.GetUrls env_ok "alice"
             (snd (serve (Middletier.DeleteFeed env_ok) (req_alice [] url_a)
                         (state0 table_ab))))
      = Done (inl feedURLs)
      ∧ url_b ∈ feedURLs ∧ url_a ∉ feedURLs.
Proof.
  split; [reflexivity|]. split; [reflexivity|]. split; [reflexivity|].
  destruct (unsubscribe_then_list env_ok env_ok (req_alice [] url_a)
              (state0 table_ab) "alice" eq_refl eq_refl eq_refl eq_refl)
    as [(l & Hl & _ & Hin) _].
  exists l. split; [exact Hl|]. split.
  - apply Hin. split.
    + vm_compute. apply list_elem_of_further, list_elem_of_here.
    + vm_compute. discriminate.
  - intros Ha. apply Hin in Ha as [_ Hne]. apply Hne. vm_compute. reflexivity.
Defined.

(** X13. Subscribing to a URL the user did not have and unsubscribing from it
    again gives back the table as it was. *)
Theorem subscribe_unsubscribe_round_trip env env' req s :
  table s !! (vars_get req "user", FormValue req "url") = None →
  CreateSession_err env = None → Exec_err env = None →
  CreateSession_err env' = None → Exec_err env' = None →
  table (snd (serve (Middletier.DeleteFeed env') req
                    (snd (serve (Middletier.AddFeed env) req s)))) = table s
  ∧ (∀ ctx ctx',
       Extract env (Header req) = inl ctx →
       Extract env' (Header req) = inl ctx' →
       table (snd (serve (Opentracing.Unsubscribe env') req
                         (snd (serve (Opentracing.Subscribe env) req s))))
       = table s).
Proof.
  intros Habs Hc Hx Hc' Hx'. split; [|intros ctx ctx' He He'].
  - rewrite Middletier_AddFeed_ok, Middletier_DeleteFeed_ok by done.
    cbn [snd table written]. by apply delete_insert_id.
  - rewrite (Opentracing_Subscribe_ok _ _ _ ctx),
      (Opentracing_Unsubscribe_ok _ _ _ ctx') by done.
    cbn [snd table written]. by apply delete_insert_id.
Qed.

Lemma subscribe_unsubscribe_witness :
  table (state0 table_b) !! (vars_get (req_alice [] url_a) "user",
                             FormValue (req_alice [] url_a) "url") = None
  ∧ CreateSession_err env_ok = None ∧ Exec_err env_ok = None
  ∧ table (snd (serve (Middletier.DeleteFeed env_ok) (req_alice [] url_a)
                      (snd (serve (Middletier.AddFeed env_ok)
                                  (req_alice [] url_a) (state0 table_b)))))
    = table_b.
Proof.
  assert (Habs : table (state0 table_b)
                   !! (vars_get (req_alice [] url_a) "user",
                       FormValue (req_alice [] url_a) "url") = None)
    by (vm_compute; reflexivity).
  split; [exact Habs|]. split; [reflexivity|]. split; [reflexivity|].
  exact (proj1 (subscribe_unsubscribe_round_trip env_ok env_ok
                  (req_alice [] url_a) (state0 table_b) Habs
                  eq_refl eq_refl eq_refl eq_refl)).
Defined.

(** X14. Unsubscribing twice leaves the table as unsubscribing once leaves
    it, with no row under the pair, and both requests answer 200 with an
    empty body. *)
Theorem unsubscribe_twice_is_unsubscribe_once env env' req s :
  CreateSession_err env = None → Exec_err env = None →
  CreateSession_err env' = None → Exec_err env' = None →
  let idempotent (first second : Request → Go unit) :=
    let once := snd (serve first req s) in
    let twice := snd (serve second req once) in
    response (serve first req s) = Some (StatusOK, "")
    ∧ response (serve second req once) = Some (StatusOK, "")
    ∧ table twice = table once
    ∧ table twice !! (vars_get req "user", FormValue req "url") = None in
  idempotent (Middletier.DeleteFeed env) (Middletier.DeleteFeed env')
  ∧ (∀ ctx ctx',
       Extract env (Header req) = inl ctx →
       Extract env' (Header req) = inl ctx' →
       idempotent (Opentracing.Unsubscribe env) (Opentracing.Unsubscribe env')).
Proof.
  intros Hc Hx Hc' Hx'. cbv zeta. split; [|intros ctx ctx' He He'].
  - rewrite Middletier_DeleteFeed_ok by done. cbn [snd fst].
    rewrite Middletier_DeleteFeed_ok by done. cbn [snd fst response].
    unfold written; cbn [table status body].
    rewrite delete_delete_eq. repeat split. apply lookup_delete_eq.
  - rewrite (Opentracing_Unsubscribe_ok _ _ _ ctx) by done. cbn [snd fst].
    rewrite (Opentracing_Unsubscribe_ok _ _ _ ctx') by done.
    cbn [snd fst response].
    unfold written; cbn [table status body].
    rewrite delete_delete_eq. repeat split. apply lookup_delete_eq.
Qed.

Lemma unsubscribe_twice_witness :
  CreateSession_err env_ok = None ∧ Exec_err env_ok = None
  ∧ (let req := req_alice [] url_a in
     let once := snd (serve (Middletier.DeleteFeed env_ok) req (state0 table_ab)) in
     let twice := snd (serve (Middletier.DeleteFeed env_ok) req once) in
     table twice = table once).
Proof.
  split; [reflexivity|]. split; [reflexivity|].
  destruct (unsubscribe_twice_is_unsubscribe_once env_ok env_ok
              (req_alice [] url_a) (state0 table_ab)
              eq_refl eq_refl eq_refl eq_refl) as [(_ & _ & Ht & _) _].
  exact Ht.
Defined.

(** ** The liveness probe *)

(** X15. [Healthcheck] answers 200 with the fixed page for any request and in
    any state of the store, and touches neither the table, nor the sessions,
    nor anything that is traced; both services serve the same page. *)
Theorem Healthcheck_always_answers req s :
  let page := "<h1>Healthcheck page</h1>" in
  serve Middletier.Healthcheck req s
  = (Done tt,
     mkState (table s) (live s) (next_session s) (trace s) (Some StatusOK) page)
  ∧ serve Opentracing.Healthcheck req s = serve Middletier.Healthcheck req s
  ∧ response (serve Middletier.Healthcheck req s) = Some (StatusOK, page).
Proof. by destruct s. Qed.

(** ** Requests without a [url] field *)

(** Finds an event among those a run appended to the trace. *)
Ltac in_trace :=
  apply elem_of_app; right;
  repeat first [apply list_elem_of_here | apply list_elem_of_further].

(** X16. The [url] form field is not validated: when it is missing (or has
    no value) the write handlers send their INSERT or DELETE with the empty
    string as feed URL, and an accepted subscribe stores a row under the
    empty URL. *)
Theorem missing_url_is_written_as_empty env req s :
  Form req !! "url" = None ∨ Form req !! "url" = Some [] →
  CreateSession_err env = None →
  let user := vars_get req "user" in
  EInsert user "" "1" ∈ trace (snd (serve (Middletier.AddFeed env) req s))
  ∧ EDelete user "" ∈ trace (snd (serve (Middletier.DeleteFeed env) req s))
  ∧ (Exec_err env = None →
     table (snd (serve (Middletier.AddFeed env) req s)) !! (user, "") = Some "1")
  ∧ (∀ ctx, Extract env (Header req) = inl ctx →
       EInsert user "" "1" ∈ trace (snd (serve (Opentracing.Subscribe env) req s))
       ∧ EDelete user ""
         ∈ trace (snd (serve (Opentracing.Unsubscribe env) req s))
       ∧ (Exec_err env = None →
          table (snd (serve (Opentracing.Subscribe env) req s)) !! (user, "")
          = Some "1")).
Proof.
  intros Hform Hc. cbv zeta.
  assert (Hurl : FormValue req "url" = "").
  { unfold FormValue. by destruct Hform as [-> | ->]. }
  destruct (Exec_err env) as [e|] eqn:Hx.
  - rewrite (Middletier_AddFeed_exec_fails _ _ _ e),
      (Middletier_DeleteFeed_exec_fails _ _ _ e) by done.
    rewrite Hurl. unfold died_connected. cbn [snd trace].
    split; [in_trace|]. split; [in_trace|]. split; [done|].
    intros ctx He.
    rewrite (Opentracing_Subscribe_exec_fails _ _ _ ctx e),
      (Opentracing_Unsubscribe_exec_fails _ _ _ ctx e) by done.
    rewrite Hurl. unfold died_connected. cbn [snd trace].
    split; [in_trace|]. split; [in_trace|done].
  - rewrite Middletier_AddFeed_ok, Middletier_DeleteFeed_ok by done.
    rewrite Hurl. unfold written. cbn [snd trace table].
    split; [in_trace|]. split; [in_trace|].
    split; [intros _; apply lookup_insert_eq|].
    intros ctx He.
    rewrite (Opentracing_Subscribe_ok _ _ _ ctx),
      (Opentracing_Unsubscribe_ok _ _ _ ctx) by done.
    rewrite Hurl. unfold written. cbn [snd trace table].
    split; [in_trace|]. split; [in_trace|].
    intros _; apply lookup_insert_eq.
Qed.

Lemma missing_url_witness :
  (Form (mkRequest [] {[ "user" := "alice" ]} ∅) !! "url" = None
   ∨ Form (mkRequest [] {[ "user" := "alice" ]} ∅) !! "url" = Some [])
  ∧ CreateSession_err env_ok = None
  ∧ table (snd (serve (Middletier.AddFeed env_ok)
                      (mkRequest [] {[ "user" := "alice" ]} ∅) (state0 ∅)))
      !! ("alice", "") = Some "1".
Proof.
  assert (Hform : Form (mkRequest [] {[ "user" := "alice" ]} ∅) !! "url" = None
                  ∨ Form (mkRequest [] {[ "user" := "alice" ]} ∅) !! "url"
                    = Some [])
    by (left; vm_compute; reflexivity).
  split; [exact Hform|]. split; [reflexivity|].
  destruct (missing_url_is_written_as_empty env_ok
              (mkRequest [] {[ "user" := "alice" ]} ∅) (state0 ∅)
              Hform eq_refl) as (_ & _ & Hrow & _).
  exact (Hrow eq_refl).
Defined.

(** ** The error of a failed connection *)

(** X17. When no session can be opened, a fetch request answers 500 with the
    fixed text: the error of the driver is neither logged nor shown, no query
    is sent and no session is left open. The write handlers, by contrast,
    log that error before the process exits. *)
Theorem fetch_hides_the_connection_error env req s err :
  CreateSession_err env = Some err →
  let quiet_500 (r : Outcome unit * State) :=
    response r = Some (StatusInternalServerError, "Cannot connect to cassandra")
    ∧ filter (fun e => is_log e = true) (trace (snd r))
      = filter (fun e => is_log e = true) (trace s)
    ∧ filter (fun e => is_select e = true) (trace (snd r))
      = filter (fun e => is_select e = true) (trace s)
    ∧ live (snd r) = live s in
  quiet_500 (serve (Middletier.GetFeed env) req s)
  ∧ ELog err ∈ trace (snd (serve (Middletier.AddFeed env) req s))
  ∧ ELog err ∈ trace (snd (serve (Middletier.DeleteFeed env) req s))
  ∧ (∀ ctx, Extract env (Header req) = inl ctx →
       quiet_500 (serve (Opentracing.FetchFeed env) req s)
       ∧ ELog err ∈ trace (snd (serve (Opentracing.Subscribe env) req s))
       ∧ ELog err ∈ trace (snd (serve (Opentracing.Unsubscribe env) req s))).
Proof.
  intros Hc. cbv zeta.
  rewrite (Middletier_GetFeed_unreachable _ _ _ err),
    (Middletier_AddFeed_unreachable _ _ _ err),
    (Middletier_DeleteFeed_unreachable _ _ _ err) by done.
  unfold died_unconnected. cbn [snd trace live response status body default].
  split; [|split; [in_trace|split; [in_trace|]]].
  - rewrite !filter_app. cbn. by rewrite !app_nil_r.
  - intros ctx He.
    rewrite (Opentracing_FetchFeed_unreachable _ _ _ ctx err),
      (Opentracing_Subscribe_unreachable _ _ _ ctx err),
      (Opentracing_Unsubscribe_unreachable _ _ _ ctx err) by done.
    unfold died_unconnected. cbn [snd trace live response status body default].
    split; [|split; in_trace].
    rewrite !filter_app. cbn. by rewrite !app_nil_r.
Qed.

Lemma fetch_hides_the_connection_error_witness :
  CreateSession_err env_unreachable = Some "gocql: unable to create session"
  ∧ response (serve (Middletier.GetFeed env_unreachable) (req_alice [] "")
                    (state0 table_ab))
    = Some (StatusInternalServerError, "Cannot connect to cassandra")
  ∧ filter (fun e => is_log e = true)
           (trace (snd (serve (Middletier.GetFeed env_unreachable)
                              (req_alice [] "") (state0 table_ab)))) = [].
Proof.
  split; [reflexivity|].
  destruct (fetch_hides_the_connection_error env_unreachable (req_alice [] "")
              (state0 table_ab) _ eq_refl) as ((Hr & Hl & _) & _).
  split; [exact Hr | exact Hl].
Defined.

(** ** Spans and monitoring records *)

(** Evaluates the bracket structure of a fully evaluated trace. *)
Ltac bracket_run H :=
  repeat first
    [ rewrite brackets_app
    | rewrite H
    | rewrite brackets_fetches
    | rewrite brackets_fetch_events
    | progress cbn ].

(** Settles the bracket structure of one fully evaluated run: balanced when
    the run did not exit, something left open when it did. *)
Ltac bracket_case H :=
  unfold written, died_connected, died_unconnected, fresh_writer;
  cbn [fst snd trace];
  split;
  [ first [ intros Hex; by destruct (Hex 1)
          | intros _; bracket_run H; reflexivity ]
  | first [ intros code Hcode; discriminate
          | intros code _; eexists; split;
            [bracket_run H; reflexivity | cbn; lia] ] ].

(** X18. Spans and monitoring records nest properly. When a handler returns
    or panics, everything it began has been ended, innermost first, so the
    open names are those that were open before the request. When the process
    exits inside a handler, at least one name it began is left open. *)
Theorem begun_is_ended_unless_exit env req s opened opened' :
  brackets opened (trace s) = Some opened' →
  let nested (r : Outcome unit * State) :=
    ((∀ code, fst r ≠ Exit code) →
     brackets opened (trace (snd r)) = Some opened')
    ∧ (∀ code, fst r = Exit code →
         ∃ unfinished, brackets opened (trace (snd r)) = Some unfinished
                       ∧ (length opened' < length unfinished)%nat) in
  nested (serve (Middletier.GetFeed env) req s)
  ∧ nested (serve (Middletier.AddFeed env) req s)
  ∧ nested (serve (Middletier.DeleteFeed env) req s)
  ∧ nested (serve (Opentracing.FetchFeed env) req s)
  ∧ nested (serve (Opentracing.Subscribe env) req s)
  ∧ nested (serve (Opentracing.Unsubscribe env) req s).
Proof.
  intros H. cbv zeta.
  assert (Hearly : ∀ r : Outcome unit * State,
            r = (Done tt, fresh_writer s) →
            ((∀ code, fst r ≠ Exit code) →
             brackets opened (trace (snd r)) = Some opened')
            ∧ (∀ code, fst r = Exit code →
                 ∃ unfinished, brackets opened (trace (snd r)) = Some unfinished
                               ∧ (length opened' < length unfinished)%nat)).
  { intros r ->. cbn. split; [done|]. intros code Hcode; discriminate. }
  destruct (CreateSession_err env) as [e|] eqn:Hc.
  - split; [|split; [|split; [|split; [|split]]]].
    + rewrite (Middletier_GetFeed_unreachable _ _ _ e) by done.
      bracket_case H.
    + rewrite (Middletier_AddFeed_unreachable _ _ _ e) by done.
      bracket_case H.
    + rewrite (Middletier_DeleteFeed_unreachable _ _ _ e) by done.
      bracket_case H.
    + destruct (Extract env (Header req)) as [ctx|e0] eqn:He.
      * rewrite (Opentracing_FetchFeed_unreachable _ _ _ ctx e) by done.
        bracket_case H.
      * apply Hearly, (Opentracing_early_return env req s e0 He).
    + destruct (Extract env (Header req)) as [ctx|e0] eqn:He.
      * rewrite (Opentracing_Subscribe_unreachable _ _ _ ctx e) by done.
        bracket_case H.
      * apply Hearly, (Opentracing_early_return env req s e0 He).
    + destruct (Extract env (Header req)) as [ctx|e0] eqn:He.
      * rewrite (Opentracing_Unsubscribe_unreachable _ _ _ ctx e) by done.
        bracket_case H.
      * apply Hearly, (Opentracing_early_return env req s e0 He).
  - split; [|split; [|split; [|split; [|split]]]].
    + destruct (Iter_err env) as [[k e]|] eqn:Hi.
      * rewrite (Middletier_GetFeed_iter_fails_run _ _ _ k e) by done.
        bracket_case H.
      * rewrite Middletier_GetFeed_listed by done.
        destruct (forallb _ _); bracket_case H.
    + destruct (Exec_err env) as [e|] eqn:Hx.
      * rewrite (Middletier_AddFeed_exec_fails _ _ _ e) by done.
        bracket_case H.
      * rewrite Middletier_AddFeed_ok by done. bracket_case H.
    + destruct (Exec_err env) as [e|] eqn:Hx.
      * rewrite (Middletier_DeleteFeed_exec_fails _ _ _ e) by done.
        bracket_case H.
      * rewrite Middletier_DeleteFeed_ok by done. bracket_case H.
    + destruct (Extract env (Header req)) as [ctx|e0] eqn:He.
      * destruct (Iter_err env) as [[k e]|] eqn:Hi.
        -- rewrite (Opentracing_FetchFeed_iter_fails_run _ _ _ ctx k e) by done.
           bracket_case H.
        -- rewrite (Opentracing_FetchFeed_listed _ _ _ ctx) by done.
           bracket_case H.
      * apply Hearly, (Opentracing_early_return env req s e0 He).
    + destruct (Extract env (Header req)) as [ctx|e0] eqn:He.
      * destruct (Exec_err env) as [e|] eqn:Hx.
        -- rewrite (Opentracing_Subscribe_exec_fails _ _ _ ctx e) by done.
           bracket_case H.
        -- rewrite (Opentracing_Subscribe_ok _ _ _ ctx) by done.
           bracket_case H.
      * apply Hearly, (Opentracing_early_return env req s e0 He).
    + destruct (Extract env (Header req)) as [ctx|e0] eqn:He.
      * destruct (Exec_err env) as [e|] eqn:Hx.
        -- rewrite (Opentracing_Unsubscribe_exec_fails _ _ _ ctx e) by done.
           bracket_case H.
        -- rewrite (Opentracing_Unsubscribe_ok _ _ _ ctx) by done.
           bracket_case H.
      * apply Hearly, (Opentracing_early_return env req s e0 He).
Qed.

Lemma begun_is_ended_witness :
  brackets [] (trace (state0 table_ab)) = Some []
  ∧ brackets [] (trace (snd (serve (Opentracing.FetchFeed env_ok)
                                   (req_alice traced_header "")
                                   (state0 table_ab)))) = Some []
  ∧ brackets [] (trace (snd (serve (Middletier.GetFeed env_ok)
                                   (req_alice [] "") (state0 table_ab))))
    = Some [].
Proof.
  split; [reflexivity|].
  destruct (begun_is_ended_unless_exit env_ok (req_alice traced_header "")
              (state0 table_ab) [] [] eq_refl) as (_ & _ & _ & [Hf _] & _).
  destruct (begun_is_ended_unless_exit env_ok (req_alice [] "")
              (state0 table_ab) [] [] eq_refl) as ([Hg _] & _).
  split.
  - apply Hf. intros code. vm_compute. discriminate.
  - apply Hg. intros code. vm_compute. discriminate.
Defined.

(** ** The listing operation on its own *)

(** X19. [GetUrls] of either service ends in one of three ways: the fixed
    connection error, the end of the process when the iterator reports an
    error, or the stored URLs of the user. Its second error value,
    ["Error fetching data from cassandra"], is never returned. *)
Theorem GetUrls_outcome env user s :
  let outcome :=
    match CreateSession_err env, Iter_err env with
    | Some _, _ => Done (inr "Cannot connect to cassandra")
    | None, Some _ => Exit 1
    | None, None => Done (inl (select_column1 (table s) user))
    end in
  fst (Middletier.GetUrls env user s) = outcome
  ∧ fst (Opentracing.GetUrls env user s) = outcome
  ∧ fst (Middletier.GetUrls env user s)
    ≠ Done (inr "Error fetching data from cassandra")
  ∧ fst (Opentracing.GetUrls env user s)
    ≠ Done (inr "Error fetching data from cassandra").
Proof.
  cbv zeta. destruct (CreateSession_err env) as [e|] eqn:Hc.
  - by rewrite (Middletier_GetUrls_unreachable _ _ _ e),
      (Opentracing_GetUrls_unreachable _ _ _ e).
  - destruct (Iter_err env) as [[k e]|] eqn:Hi.
    + by rewrite (Middletier_GetUrls_iter_fails _ _ _ k e),
        (Opentracing_GetUrls_iter_fails _ _ _ k e).
    + by rewrite Middletier_GetUrls_ok, Opentracing_GetUrls_ok.
Qed.

(** ** The two services side by side *)

(** X20. For a request that carries a span context the traced service does
    to the client and to the store what the monitored service does: the write
    handlers always, the fetch handler whenever no listed feed fails. *)
Theorem services_agree env req s ctx :
  Extract env (Header req) = inl ctx →
  let same (r r' : Outcome unit * State) :=
    fst r = fst r' ∧ response r = response r'
    ∧ table (snd r) = table (snd r') ∧ live (snd r) = live (snd r') in
  same (serve (Opentracing.Subscribe env) req s)
       (serve (Middletier.AddFeed env) req s)
  ∧ same (serve (Opentracing.Unsubscribe env) req s)
         (serve (Middletier.DeleteFeed env) req s)
  ∧ ((CreateSession_err env = None → Iter_err env = None →
      forallb (fetch_ok env) (select_column1 (table s) (vars_get req "user"))
      = true) →
     same (serve (Opentracing.FetchFeed env) req s)
          (serve (Middletier.GetFeed env) req s)).
Proof.
  intros He. cbv zeta.
  destruct (CreateSession_err env) as [e|] eqn:Hc.
  - rewrite (Opentracing_Subscribe_unreachable _ _ _ ctx e),
      (Opentracing_Unsubscribe_unreachable _ _ _ ctx e),
      (Opentracing_FetchFeed_unreachable _ _ _ ctx e),
      (Middletier_AddFeed_unreachable _ _ _ e),
      (Middletier_DeleteFeed_unreachable _ _ _ e),
      (Middletier_GetFeed_unreachable _ _ _ e) by done.
    done.
  - split; [|split].
    + destruct (Exec_err env) as [e|] eqn:Hx.
      * by rewrite (Opentracing_Subscribe_exec_fails _ _ _ ctx e),
          (Middletier_AddFeed_exec_fails _ _ _ e).
      * by rewrite (Opentracing_Subscribe_ok _ _ _ ctx), Middletier_AddFeed_ok.
    + destruct (Exec_err env) as [e|] eqn:Hx.
      * by rewrite (Opentracing_Unsubscribe_exec_fails _ _ _ ctx e),
          (Middletier_DeleteFeed_exec_fails _ _ _ e).
      * by rewrite (Opentracing_Unsubscribe_ok _ _ _ ctx),
          Middletier_DeleteFeed_ok.
    + intros Hall. destruct (Iter_err env) as [[k e]|] eqn:Hi.
      * by rewrite (Opentracing_FetchFeed_iter_fails_run _ _ _ ctx k e),
          (Middletier_GetFeed_iter_fails_run _ _ _ k e).
      * rewrite (Opentracing_FetchFeed_listed _ _ _ ctx),
          Middletier_GetFeed_listed by done.
        by rewrite (Hall eq_refl eq_refl).
Qed.

Lemma services_agree_witness :
  Extract env_ok (Header (req_alice traced_header url_a)) = inl "span"
  ∧ response (serve (Opentracing.Subscribe env_ok)
                    (req_alice traced_header url_a) (state0 table_b))
    = response (serve (Middletier.AddFeed env_ok)
                      (req_alice traced_header url_a) (state0 table_b))
  ∧ table (snd (serve (Opentracing.Subscribe env_ok)
                      (req_alice traced_header url_a) (state0 table_b)))
    = table (snd (serve (Middletier.AddFeed env_ok)
                        (req_alice traced_header url_a) (state0 table_b))).
Proof.
  split; [reflexivity|].
  destruct (services_agree env_ok (req_alice traced_header url_a)
              (state0 table_b) "span" eq_refl) as ((_ & Hr & Ht & _) & _).
  split; [exact Hr | exact Ht].
Defined.

(** ** The stored marker *)

(** Settles the marker invariant of one fully evaluated run. *)
Ltac marker_case Hm :=
  unfold written, died_connected, died_unconnected, fresh_writer;
  cbn [snd table];
  first [ exact Hm
        | by apply map_Forall_insert_2
        | by apply map_Forall_delete ].

(** X21. Every row the service stores carries the marker ["1"]: if all rows
    of the table do, they still do after any request, however it ends. *)
Theorem rows_keep_the_marker env req s :
  map_Forall (fun _ value => value = "1") (table s) →
  let marked (r : Outcome unit * State) :=
    map_Forall (fun _ value => value = "1") (table (snd r)) in
  marked (serve (Middletier.GetFeed env) req s)
  ∧ marked (serve (Middletier.AddFeed env) req s)
  ∧ marked (serve (Middletier.DeleteFeed env) req s)
  ∧ marked (serve (Opentracing.FetchFeed env) req s)
  ∧ marked (serve (Opentracing.Subscribe env) req s)
  ∧ marked (serve (Opentracing.Unsubscribe env) req s).
Proof.
  intros Hm. cbv zeta.
  assert (Hearly : ∀ r : Outcome unit * State,
            r = (Done tt, fresh_writer s) →
            map_Forall (fun _ value => value = "1") (table (snd r))).
  { intros r ->. marker_case Hm. }
  destruct (CreateSession_err env) as [e|] eqn:Hc.
  - split; [|split; [|split; [|split; [|split]]]].
    + rewrite (Middletier_GetFeed_unreachable _ _ _ e) by done.
      marker_case Hm.
    + rewrite (Middletier_AddFeed_unreachable _ _ _ e) by done.
      marker_case Hm.
    + rewrite (Middletier_DeleteFeed_unreachable _ _ _ e) by done.
      marker_case Hm.
    + destruct (Extract env (Header req)) as [ctx|e0] eqn:He.
      * rewrite (Opentracing_FetchFeed_unreachable _ _ _ ctx e) by done.
        marker_case Hm.
      * apply Hearly, (Opentracing_early_return env req s e0 He).
    + destruct (Extract env (Header req)) as [ctx|e0] eqn:He.
      * rewrite (Opentracing_Subscribe_unreachable _ _ _ ctx e) by done.
        marker_case Hm.
      * apply Hearly, (Opentracing_early_return env req s e0 He).
    + destruct (Extract env (Header req)) as [ctx|e0] eqn:He.
      * rewrite (Opentracing_Unsubscribe_unreachable _ _ _ ctx e) by done.
        marker_case Hm.
      * apply Hearly, (Opentracing_early_return env req s e0 He).
  - split; [|split; [|split; [|split; [|split]]]].
    + destruct (Iter_err env) as [[k e]|] eqn:Hi.
      * rewrite (Middletier_GetFeed_iter_fails_run _ _ _ k e) by done.
        marker_case Hm.
      * rewrite Middletier_GetFeed_listed by done. marker_case Hm.
    + destruct (Exec_err env) as [e|] eqn:Hx.
      * rewrite (Middletier_AddFeed_exec_fails _ _ _ e) by done.
        marker_case Hm.
      * rewrite Middletier_AddFeed_ok by done. marker_case Hm.
    + destruct (Exec_err env) as [e|] eqn:Hx.
      * rewrite (Middletier_DeleteFeed_exec_fails _ _ _ e) by done.
        marker_case Hm.
      * rewrite Middletier_DeleteFeed_ok by done. marker_case Hm.
    + destruct (Extract env (Header req)) as [ctx|e0] eqn:He.
      * destruct (Iter_err env) as [[k e]|] eqn:Hi.
        -- rewrite (Opentracing_FetchFeed_iter_fails_run _ _ _ ctx k e) by done.
           marker_case Hm.
        -- rewrite (Opentracing_FetchFeed_listed _ _ _ ctx) by done.
           marker_case Hm.
      * apply Hearly, (Opentracing_early_return env req s e0 He).
    + destruct (Extract env (Header req)) as [ctx|e0] eqn:He.
      * destruct (Exec_err env) as [e|] eqn:Hx.
        -- rewrite (Opentracing_Subscribe_exec_fails _ _ _ ctx e) by done.
           marker_case Hm.
        -- rewrite (Opentracing_Subscribe_ok _ _ _ ctx) by done.
           marker_case Hm.
      * apply Hearly, (Opentracing_early_return env req s e0 He).
    + destruct (Extract env (Header req)) as [ctx|e0] eqn:He.
      * destruct (Exec_err env) as [e|] eqn:Hx.
        -- rewrite (Opentracing_Unsubscribe_exec_fails _ _ _ ctx e) by done.
           marker_case Hm.
        -- rewrite (Opentracing_Unsubscribe_ok _ _ _ ctx) by done.
           marker_case Hm.
      * apply Hearly, (Opentracing_early_return env req s e0 He).
Qed.

Lemma rows_keep_the_marker_witness :
  map_Forall (fun _ value => value = "1") (table (state0 table_b))
  ∧ map_Forall (fun _ value => value = "1")
               (table (snd (serve (Middletier.AddFeed env_ok)
                                  (req_alice [] url_a) (state0 table_b)))).
Proof.
  assert (Hm : map_Forall (fun _ value => value = "1") (table (state0 table_b))).
  { apply map_Forall_insert_2; [reflexivity|]. apply map_Forall_empty. }
  split; [exact Hm|].
  exact (proj1 (proj2 (rows_keep_the_marker env_ok (req_alice [] url_a)
                         (state0 table_b) Hm))).
Defined.
